(** * TheGeetaWay: retrieval and contextual re-ranking pipeline

    A shallow embedding of [embeddings/query_faiss.py] and
    [reasoning/llm_reasoning.py], of the classification functions of
    [embeddings/buildFaissIndex.py] and of the key check, the verse records
    and the search handler of [api.py], and the properties of the pipeline
    proved (or refuted) on it.

    Modelling conventions.
    - A verse dictionary is a record; a key that may be absent
      ([context_warning], [relevance_adjusted]) is an [option] field.
    - Similarity scores are Python floats.  They are modelled as exact
      rationals ([Q]): the multiplicative factors 0.75, 0.80, 1.2, ... are
      the decimal literals of the source, products are exact, and two
      scores are "the same number" when they are [Qeq].  Rounding of
      binary64 products is outside this model; where a claim names the
      digits of a product, [Binary64] gives the loop body of the
      relevance adjuster on binary64 scores, with Python's rounded
      products.
    - [list.sort(key=..., reverse=True)] is a stable descending sort; it is
      modelled by a stable insertion sort, which on totally ordered keys
      returns the same list as any other stable sort.
    - The embedding model and the similarity index are external: the
      composition of [model.encode] and [index.search] is the parameter
      [retrieve] of [search_gita]; the text generator is the constructor
      [ChatCompletion] of the result of [reason_over_verses].
    - [str.lower] is modelled on ASCII text, where it lower-cases the
      letters A-Z; every keyword of the source is lower-case ASCII.  On
      cased letters outside ASCII Python does more than this model.
    - An integer in an f-string is its decimal numeral ([Api.format_int]).
    - The module globals of [load_resources] and the files it reads are an
      explicit state and an explicit world ([Resources]). *)

From Stdlib Require Import QArith ZArith List String Ascii Bool Lia Lqa.
From Stdlib Require Import Permutation Sorted.
From Stdlib Require Import Floats.
From Stdlib Require Import Decimal DecimalString DecimalZ.
Import ListNotations.

Set Implicit Arguments.

(* ====================================================================== *)
(** * Python strings *)
(* ====================================================================== *)

Module PyStr.

Open Scope string_scope.

(** One character of [str.lower()]. *)
Definition lower_ascii (c : ascii) : ascii :=
  let n := nat_of_ascii c in
  if (65 <=? n)%nat && (n <=? 90)%nat then ascii_of_nat (n + 32) else c.

(** [s.lower()] *)
Fixpoint lower (s : string) : string :=
  match s with
  | EmptyString => EmptyString
  | String c s' => String (lower_ascii c) (lower s')
  end.

(** [needle in hay] for two strings: substring test. *)
Fixpoint contains (needle hay : string) : bool :=
  String.prefix needle hay
  || match hay with
     | EmptyString => false
     | String _ hay' => contains needle hay'
     end.

(** [any(w in text for w in words)] *)
Definition any_in (words : list string) (text : string) : bool :=
  existsb (fun w => contains w text) words.

(** [sep.join(parts)] *)
Definition join (sep : string) (parts : list string) : string :=
  String.concat sep parts.

End PyStr.

(* ====================================================================== *)
(** * Python values shared by the two modules *)
(* ====================================================================== *)

(** [x < y] on scores. *)
Definition Qltb (x y : Q) : bool := negb (Qle_bool y x).

(** The two strings stored under ['context_warning']. *)
Inductive Warning : Type :=
| battlefield
| death_rebirth.

(** The dictionary built by [search_gita] for one hit.  [context_warning]
    is [None] both when the key is absent and when it holds Python's
    [None] (the source only reads it through [.get] and truthiness);
    [relevance_adjusted] is [None] when the key is absent. *)
Record Verse : Type := mkVerse {
  score : Q;
  chapter : Z;
  verse : Z;
  sanskrit : string;
  english : string;
  themes : list string;
  is_practical : bool;
  context_warning : option Warning;
  relevance_adjusted : option Q
}.

(** [x.get('relevance_adjusted', x['score'])]; on a dictionary that has the
    key this is [x['relevance_adjusted']]. *)
Definition adjusted_key (x : Verse) : Q :=
  match relevance_adjusted x with
  | Some a => a
  | None => score x
  end.

(** ** [list.sort(key=key, reverse=True)] *)

(** Insertion of [x], which stood before every element of [l] in the
    original list: it passes the elements with a strictly greater key and
    stops before the first one whose key is not greater (so equal keys keep
    their original order). *)
Fixpoint insert_desc (A : Type) (key : A -> Q) (x : A) (l : list A) : list A :=
  match l with
  | [] => [x]
  | y :: l' =>
      if Qltb (key x) (key y) then y :: insert_desc key x l' else x :: l
  end.

Definition sort_desc (A : Type) (key : A -> Q) (l : list A) : list A :=
  fold_right (insert_desc key) [] l.

(** [x] may stand before [y] in a list sorted by [key], highest first. *)
Definition before (A : Type) (key : A -> Q) (x y : A) : Prop := key y <= key x.

(** Sorted by [key], highest first. *)
Definition desc (A : Type) (key : A -> Q) : list A -> Prop :=
  StronglySorted (before key).

(** ** Exceptions *)

Inductive exn : Type :=
| IndexError.

Inductive result (A : Type) : Type :=
| Ok (a : A)
| Raise (e : exn).

Arguments Ok {A} a.
Arguments Raise {A} e.

Definition bind (A B : Type) (m : result A) (k : A -> result B) : result B :=
  match m with
  | Ok a => k a
  | Raise e => Raise e
  end.

Notation "x <- m ;; k" := (bind m (fun x => k))
  (at level 61, m at next level, right associativity).

(** [l[idx]] for a Python list and an integer index: a negative index counts
    from the end, anything outside [-len, len) raises [IndexError]. *)
Definition py_getitem (A : Type) (l : list A) (idx : Z) : result A :=
  let n := Z.of_nat (List.length l) in
  let pos := if (idx <? 0)%Z then (idx + n)%Z else idx in
  if ((0 <=? pos) && (pos <? n))%Z
  then match nth_error l (Z.to_nat pos) with
       | Some a => Ok a
       | None => Raise IndexError
       end
  else Raise IndexError.

(* ====================================================================== *)
(** * embeddings/query_faiss.py *)
(* ====================================================================== *)

Module QueryFaiss.

Import PyStr.
Open Scope string_scope.

Definition TOP_K : Z := 12.

(** [problem_type] of [categorize_problem]: one flag per category. *)
Record ProblemType : Type := mkProblemType {
  emotional : bool;
  decision : bool;
  relationship : bool;
  career : bool;
  existential : bool
}.

Definition categorize_problem (query : string) : ProblemType :=
  let query_lower := lower query in
  {| emotional :=
       any_in ["afraid"; "fear"; "anxious"; "worried"; "stressed";
               "overwhelmed"; "panic"; "nervous"; "scared"] query_lower;
     decision :=
       any_in ["should i"; "confused"; "don't know"; "uncertain";
               "choice"; "decide"; "which"; "whether"] query_lower;
     relationship :=
       any_in ["family"; "friend"; "colleague"; "relationship";
               "conflict"; "argument"; "partner"; "spouse"; "parent"]
              query_lower;
     career :=
       any_in ["career"; "job"; "work"; "future"; "path";
               "purpose"; "goal"; "profession"; "business"] query_lower;
     existential :=
       any_in ["meaning"; "why"; "life"; "death"; "purpose of";
               "exist"; "point of"] query_lower |}.

(** [contexts.append(phrase)] under [if flag:]. *)
Definition append_if (flag : bool) (phrase : string) (contexts : list string)
  : list string :=
  if flag then (contexts ++ [phrase])%list else contexts.

Definition enhance_query_contextual (query : string) : string :=
  let problem_type := categorize_problem query in
  let base := "Practical life guidance: " ++ query in
  let contexts := [] in
  let contexts :=
    append_if (emotional problem_type) "managing fear and anxiety" contexts in
  let contexts :=
    append_if (decision problem_type) "making clear decisions" contexts in
  let contexts :=
    append_if (career problem_type) "finding purpose and direction" contexts in
  let contexts :=
    append_if (relationship problem_type)
              "handling interpersonal challenges" contexts in
  let contexts :=
    append_if (existential problem_type)
              "understanding life's meaning" contexts in
  match contexts with
  | [] => base
  | _ :: _ => base ++ ". Focus on: " ++ join ", " contexts
  end.

(** Query-side intent flags of [filter_context_specific_verses]. *)
Definition is_social_concern (user_problem : string) : bool :=
  any_in ["reputation"; "respect"; "judged"; "what people think";
          "embarrassed"; "ashamed"; "honor"; "image"] (lower user_problem).

Definition is_confrontation (user_problem : string) : bool :=
  any_in ["confront"; "face"; "stand up"; "challenge";
          "difficult situation"] (lower user_problem).

(** Text-side flags computed in the loop of
    [filter_context_specific_verses]. *)
Definition is_battlefield (text_lower : string) : bool :=
  any_in ["battlefield"; "warrior"; "general"; "war"; "combat";
          "army"; "weapon"; "fight"; "battle"] text_lower.

Definition is_death_focused (text_lower : string) : bool :=
  any_in ["death is certain"; "rebirth is inevitable";
          "born and die"; "dissolution"] text_lower.

(** [verse['context_warning'] = w; verse['relevance_adjusted'] = a] *)
Definition set_adjustment (v : Verse) (w : option Warning) (a : Q) : Verse :=
  {| score := score v; chapter := chapter v; verse := verse v;
     sanskrit := sanskrit v; english := english v; themes := themes v;
     is_practical := is_practical v;
     context_warning := w; relevance_adjusted := Some a |}.

(** Body of the [for verse in results] loop of
    [filter_context_specific_verses]. *)
Definition adjust_verse (user_problem : string) (v : Verse) : Verse :=
  let text_lower := lower (english v) in
  if is_battlefield text_lower
     && negb (is_social_concern user_problem || is_confrontation user_problem)
  then set_adjustment v (Some battlefield) (score v * 0.75)
  else if is_death_focused text_lower
          && negb (existential (categorize_problem user_problem))
  then set_adjustment v (Some death_rebirth) (score v * 0.80)
  else set_adjustment v None (score v).

Definition filter_context_specific_verses
           (results : list Verse) (user_problem : string) : list Verse :=
  let filtered := map (adjust_verse user_problem) results in
  sort_desc adjusted_key filtered.

(** One entry of [metadata.json]; ["themes"] and ["is_practical"] are read
    with [.get] and a default, so they may be absent. *)
Record MetaVerse : Type := mkMetaVerse {
  m_chapter : Z;
  m_verse : Z;
  m_sanskrit : string;
  m_english : string;
  m_themes : option (list string);
  m_is_practical : option bool
}.

Definition get (A : Type) (field : option A) (default : A) : A :=
  match field with
  | Some a => a
  | None => default
  end.

(** The [for idx, score in zip(indices[0], distances[0])] loop of
    [search_gita]. *)
Fixpoint build_results (metadata : list MetaVerse) (hits : list (Z * Q))
  : result (list Verse) :=
  match hits with
  | [] => Ok []
  | (idx, sc) :: hits' =>
      if (idx >=? Z.of_nat (List.length metadata))%Z
      then build_results metadata hits'
      else
        v <- py_getitem metadata idx ;;
        results <- build_results metadata hits' ;;
        Ok ({| score := sc;
               chapter := m_chapter v;
               verse := m_verse v;
               sanskrit := m_sanskrit v;
               english := m_english v;
               themes := get (m_themes v) [];
               is_practical := get (m_is_practical v) false;
               context_warning := None;
               relevance_adjusted := None |} :: results)
  end.

(** ** Equality of dictionaries, for [r not in ideal_verses] *)

Definition option_eqb (A : Type) (eqb : A -> A -> bool) (x y : option A) : bool :=
  match x, y with
  | Some a, Some b => eqb a b
  | None, None => true
  | _, _ => false
  end.

Fixpoint list_eqb (A : Type) (eqb : A -> A -> bool) (l1 l2 : list A) : bool :=
  match l1, l2 with
  | [], [] => true
  | a :: l1', b :: l2' => eqb a b && list_eqb eqb l1' l2'
  | _, _ => false
  end.

Definition warning_eqb (w1 w2 : Warning) : bool :=
  match w1, w2 with
  | battlefield, battlefield => true
  | death_rebirth, death_rebirth => true
  | _, _ => false
  end.

(** [r1 == r2] on two result dictionaries. *)
Definition verse_eqb (r1 r2 : Verse) : bool :=
  Qeq_bool (score r1) (score r2)
  && (chapter r1 =? chapter r2)%Z
  && (verse r1 =? verse r2)%Z
  && String.eqb (sanskrit r1) (sanskrit r2)
  && String.eqb (english r1) (english r2)
  && list_eqb String.eqb (themes r1) (themes r2)
  && Bool.eqb (is_practical r1) (is_practical r2)
  && option_eqb warning_eqb (context_warning r1) (context_warning r2)
  && option_eqb Qeq_bool (relevance_adjusted r1) (relevance_adjusted r2).

(** [r in l] *)
Definition py_in (r : Verse) (l : list Verse) : bool :=
  existsb (verse_eqb r) l.

(** Truthiness of [r.get('context_warning')]: [None] is false, a warning
    string is true. *)
Definition truthy (w : option Warning) : bool :=
  match w with
  | Some _ => true
  | None => false
  end.

(** The condition of the [ideal_verses] comprehension. *)
Definition is_ideal (r : Verse) : bool :=
  is_practical r && negb (truthy (context_warning r)).

(** The [if filter_practical: ... else: ...] block of [search_gita]. *)
Definition select_practical (filter_practical : bool) (results : list Verse)
  : list Verse :=
  if filter_practical then
    let ideal_verses := filter is_ideal results in
    if (5 <=? List.length ideal_verses)%nat
    then firstn 5 ideal_verses
    else
      let results :=
        (ideal_verses
         ++ filter (fun r => negb (py_in r ideal_verses)) results)%list in
      firstn 5 results
  else firstn 5 results.

(** [search_gita] after its first statement, [model, index, metadata =
    load_resources()], has returned.  [retrieve enhanced_query top_k]
    stands for [zip(indices[0], distances[0])] after [model.encode] and
    [index.search].  The function with the loading in front is
    [Resources.search_gita]. *)
Definition search_gita
           (retrieve : string -> Z -> list (Z * Q))
           (metadata : list MetaVerse)
           (query : string) (top_k : Z) (filter_practical : bool)
  : result (list Verse) :=
  let enhanced_query := enhance_query_contextual query in
  let hits := retrieve enhanced_query top_k in
  results <- build_results metadata hits ;;
  let results := filter_context_specific_verses results query in
  let results := select_practical filter_practical results in
  Ok (sort_desc adjusted_key results).

End QueryFaiss.

(* ====================================================================== *)
(** * embeddings/query_faiss.py: the adjuster on binary64 scores *)
(* ====================================================================== *)

Module Binary64.

Import PyStr QueryFaiss.

(** Body of the [for verse in results] loop of
    [filter_context_specific_verses] for a verse whose ['english'] is
    [verse_english] and whose ['score'] is the Python float [raw]: the
    values written under ['context_warning'] and ['relevance_adjusted'].
    The tests are those of [QueryFaiss.adjust_verse]; the products are
    binary64 products, rounded to nearest, of [raw] and the binary64
    numbers that the literals [0.75] and [0.80] denote. *)
#[warnings="-inexact-float"]
Definition adjust_verse (user_problem verse_english : string) (raw : float)
  : option Warning * float :=
  let text_lower := lower verse_english in
  if is_battlefield text_lower
     && negb (is_social_concern user_problem || is_confrontation user_problem)
  then (Some battlefield, (raw * 0.75)%float)
  else if is_death_focused text_lower
          && negb (existential (categorize_problem user_problem))
  then (Some death_rebirth, (raw * 0.80)%float)
  else (None, raw).

End Binary64.

(* ====================================================================== *)
(** * reasoning/llm_reasoning.py *)
(* ====================================================================== *)

Module LlmReasoning.

Import PyStr.
Open Scope string_scope.

(** The [context] dictionary of [detect_verse_context]. *)
Record VerseContext : Type := mkVerseContext {
  is_battlefield : bool;
  is_death_focused : bool;
  is_devotional : bool;
  is_cosmic : bool;
  is_universal : bool
}.

Definition battlefield_keywords : list string :=
  ["battlefield"; "warrior"; "general"; "army"; "combat";
   "fight"; "weapon"; "arjun"; "fled"; "respect for you"].

Definition death_keywords : list string :=
  ["death is certain"; "rebirth is inevitable"; "born and die";
   "imperishable"; "unborn"; "eternal soul"].

Definition devotional_keywords : list string :=
  ["surrender unto me"; "devotees"; "divine love"; "worship";
   "absorbed in me"; "refuge in me"].

Definition cosmic_keywords : list string :=
  ["cosmic form"; "universes"; "divine form"; "celestial";
   "creation and dissolution"; "brahma"].

Definition universal_keywords : list string :=
  ["one who"; "one whose"; "therefore"; "thus"; "should";
   "must"; "control"; "practice"; "perform"; "abandon"].

Definition detect_verse_context (verse_text : string) : VerseContext :=
  let text_lower := lower verse_text in
  let context :=
    {| is_battlefield := false; is_death_focused := false;
       is_devotional := false; is_cosmic := false;
       is_universal := true |} in
  {| is_battlefield := any_in battlefield_keywords text_lower;
     is_death_focused := any_in death_keywords text_lower;
     is_devotional := any_in devotional_keywords text_lower;
     is_cosmic := any_in cosmic_keywords text_lower;
     is_universal :=
       if any_in universal_keywords text_lower
       then true
       else is_universal context |}.

Definition is_grief_query (user_problem : string) : bool :=
  any_in ["died"; "death"; "lost someone"; "grief"; "mourning";
          "passed away"] (lower user_problem).

Definition is_confrontation_query (user_problem : string) : bool :=
  any_in ["confront"; "face"; "stand up"; "courage"; "brave";
          "difficult situation"] (lower user_problem).

(** The three [if] statements of the loop of
    [rank_verses_by_suitability], applied to the starting score. *)
Definition adjust_suitability
           (context : VerseContext) (grief confrontation : bool)
           (suitability_score : Q) : Q :=
  let suitability_score :=
    if is_death_focused context && grief
    then suitability_score * 1.2
    else if is_death_focused context && negb grief
         then suitability_score * 0.7
         else suitability_score in
  let suitability_score :=
    if is_battlefield context && confrontation
    then suitability_score * 1.1
    else if is_battlefield context
         then suitability_score * 0.8
         else suitability_score in
  let suitability_score :=
    if is_universal context
    then suitability_score * 1.1
    else suitability_score in
  suitability_score.

(** A verse dictionary after the reranker has added
    ['suitability_score'] and ['context'] to it. *)
Record RankedVerse : Type := mkRankedVerse {
  ranked_verse : Verse;
  suitability_score : Q;
  context : VerseContext
}.

(** Body of the [for verse in verses] loop. *)
Definition rank_verse (user_problem : string) (v : Verse) : RankedVerse :=
  let context := detect_verse_context (english v) in
  let suitability_score := adjusted_key v in
  {| ranked_verse := v;
     suitability_score :=
       adjust_suitability context (is_grief_query user_problem)
                          (is_confrontation_query user_problem)
                          suitability_score;
     context := context |}.

Definition rank_verses_by_suitability
           (verses : list Verse) (user_problem : string) : list RankedVerse :=
  let ranked := map (rank_verse user_problem) verses in
  sort_desc suitability_score ranked.

(** What [reason_over_verses] does up to its request to the text
    generator: either it returns the fixed "No highly relevant verses
    found" text without any request, or it asks for a completion of the
    prompt built from [user_problem] and [top_verses]. *)
Inductive Guidance : Type :=
| NoRelevantVerses
| ChatCompletion (user_problem : string) (top_verses : list RankedVerse).

(** The verses that reach the text generator. *)
Definition forwarded (g : Guidance) : list RankedVerse :=
  match g with
  | NoRelevantVerses => []
  | ChatCompletion _ top_verses => top_verses
  end.

(** Every dictionary made by [search_gita] has the key ['score'], so the
    default of [v.get('score', 0)] is not modelled. *)
Definition reason_over_verses
           (user_problem : string) (retrieved_verses : list Verse) : Guidance :=
  let good_verses :=
    filter (fun v => Qltb 0.30 (score v)) retrieved_verses in
  match good_verses with
  | [] => NoRelevantVerses
  | _ :: _ =>
      let ranked_verses := rank_verses_by_suitability good_verses user_problem in
      let top_verses := firstn 3 ranked_verses in
      ChatCompletion user_problem top_verses
  end.

End LlmReasoning.

(* ====================================================================== *)
(** * The rules as the specification words them *)
(* ====================================================================== *)

Module Spec.

Open Scope string_scope.

(** Identity of a verse: (chapter, verse). *)
Definition verseRef (v : Verse) : Z * Z := (chapter v, verse v).

Definition metaRef (m : QueryFaiss.MetaVerse) : Z * Z :=
  (QueryFaiss.m_chapter m, QueryFaiss.m_verse m).

(** Scoring rule of the relevance adjuster, first matching branch wins. *)
Definition adjust
           (isBattlefield isDeathFocused : bool)
           (isSocialConcern isConfrontation isExistential : bool)
           (rawScore : Q) : option Warning * Q :=
  if isBattlefield && negb isSocialConcern && negb isConfrontation
  then (Some battlefield, rawScore * 0.75)
  else if isDeathFocused && negb isExistential
       then (Some death_rebirth, rawScore * 0.80)
       else (None, rawScore).

(** The same rule on binary64 scores, the products rounded. *)
#[warnings="-inexact-float"]
Definition adjust64
           (isBattlefield isDeathFocused : bool)
           (isSocialConcern isConfrontation isExistential : bool)
           (rawScore : float) : option Warning * float :=
  if isBattlefield && negb isSocialConcern && negb isConfrontation
  then (Some battlefield, (rawScore * 0.75)%float)
  else if isDeathFocused && negb isExistential
       then (Some death_rebirth, (rawScore * 0.80)%float)
       else (None, rawScore).

(** Focus phrases of the query contextualizer, in category-declaration
    order (emotional, decision, career, relationship, existential). *)
Definition focus_table (c : QueryFaiss.ProblemType) : list (bool * string) :=
  [ (QueryFaiss.emotional c, "managing fear and anxiety");
    (QueryFaiss.decision c, "making clear decisions");
    (QueryFaiss.career c, "finding purpose and direction");
    (QueryFaiss.relationship c, "handling interpersonal challenges");
    (QueryFaiss.existential c, "understanding life's meaning") ].

Definition focus_phrases (c : QueryFaiss.ProblemType) : list string :=
  map snd (filter fst (focus_table c)).

(** The enriched query text. *)
Definition enrich (query : string) (c : QueryFaiss.ProblemType) : string :=
  match focus_phrases c with
  | [] => "Practical life guidance: " ++ query
  | phrases =>
      "Practical life guidance: " ++ query
      ++ ". Focus on: " ++ String.concat ", " phrases
  end.

(** Multipliers of the suitability reranker that apply to a candidate,
    in the order in which they are applied. *)
Definition factor_if (applies : bool) (factor : Q) : list Q :=
  if applies then [factor] else [].

Definition suitability_factors
           (isDeathFocused isBattlefield isUniversal : bool)
           (grief confrontation : bool) : list Q :=
  factor_if (isDeathFocused && grief) 1.2
  ++ factor_if (isDeathFocused && negb grief) 0.7
  ++ factor_if (isBattlefield && confrontation) 1.1
  ++ factor_if (isBattlefield && negb confrontation) 0.8
  ++ factor_if isUniversal 1.1.

Definition apply_factors (score : Q) (factors : list Q) : Q :=
  fold_left Qmult factors score.

(** "Every ideal candidate before every non-ideal candidate". *)
Fixpoint ideal_before_rest (l : list Verse) : bool :=
  match l with
  | [] => true
  | r :: l' =>
      if QueryFaiss.is_ideal r
      then ideal_before_rest l'
      else forallb (fun r' => negb (QueryFaiss.is_ideal r')) l'
  end.

(** Sorted by adjusted score, highest first. *)
Definition by_adjusted_desc (l : list Verse) : Prop :=
  desc adjusted_key l.

Definition not_ideal (r : Verse) : bool := negb (QueryFaiss.is_ideal r).

(** The candidates whose adjusted score is the number [k]. *)
Definition scored (k : Q) (r : Verse) : bool := Qeq_bool (adjusted_key r) k.

(** A hit whose index addresses an entry of the corpus. *)
Definition in_range (A : Type) (metadata : list A) (hit : Z * Q) : Prop :=
  (0 <= fst hit < Z.of_nat (List.length metadata))%Z.

End Spec.

(* ====================================================================== *)
(** * Concrete corpora, rankings and queries *)
(* ====================================================================== *)

Module Samples.

Import QueryFaiss.
Open Scope string_scope.

(** An index stub: a fixed ranking, cut to [top_k]. *)
Definition ranking (hits : list (Z * Q)) : string -> Z -> list (Z * Q) :=
  fun _ top_k => firstn (Z.to_nat top_k) hits.

(** A corpus entry without any risk keyword. *)
Definition plain (n : Z) (practical : bool) : MetaVerse :=
  {| m_chapter := 2; m_verse := n;
     m_sanskrit := "yogasthah kuru karmani";
     m_english := "Be steady in success and failure";
     m_themes := Some ["achieving inner peace"];
     m_is_practical := Some practical |}.

Definition desk_query : string := "How do I stay calm at my desk job?".
Definition grief_query : string :=
  "My father died last week and I don't know how to cope".
Definition future_query : string :=
  "I feel confused and afraid about my future".

(** Two entries; the one that is not practical is the closer match. *)
Definition corpus2 : list MetaVerse := [plain 47 false; plain 48 true].
Definition hits2 : list (Z * Q) := [(0%Z, 0.9); (1%Z, 0.5)].

(** Eight entries, two of them practical (the fourth and the seventh). *)
Definition corpus8 : list MetaVerse :=
  [plain 1 false; plain 2 false; plain 3 false; plain 4 true;
   plain 5 false; plain 6 false; plain 7 true; plain 8 false].
Definition hits8 : list (Z * Q) :=
  [(0%Z, 0.80); (1%Z, 0.75); (2%Z, 0.70); (3%Z, 0.65);
   (4%Z, 0.60); (5%Z, 0.55); (6%Z, 0.50); (7%Z, 0.45)].

(** Eight entries, six of them practical; the best match is not. *)
Definition corpus8p : list MetaVerse :=
  [plain 1 false; plain 2 true; plain 3 true; plain 4 true;
   plain 5 false; plain 6 true; plain 7 true; plain 8 true].

(** Two hits of one score on [corpus2], and three hits of which the
    second has a label beyond the end of [corpus2]. *)
Definition hits_tied : list (Z * Q) := [(0%Z, 0.5); (1%Z, 0.5)].
Definition hits_beyond : list (Z * Q) := [(0%Z, 0.9); (5%Z, 0.7); (1%Z, 0.5)].

(** A corpus of one verse searched with [top_k = 2]: the index has no
    second neighbour and reports the label -1 with the lowest float32
    as its distance. *)
Definition corpus1 : list MetaVerse := [plain 47 true].
Definition missing_neighbour : Z * Q :=
  ((-1)%Z, - 340282346638528859811704183484516925440).
Definition hits1 : list (Z * Q) := [(0%Z, 0.5); missing_neighbour].

Definition greeting_query : string := "Hello there".

(** The dictionaries built for a ranking, when none of its labels raises. *)
Definition results_of (metadata : list MetaVerse) (hits : list (Z * Q))
  : list Verse :=
  match build_results metadata hits with
  | Ok results => results
  | Raise _ => []
  end.

(** What a caller sees of a returned list: identity and raw score. *)
Definition summary (r : result (list Verse)) : result (list (Z * Z * Q)) :=
  results <- r ;; Ok (map (fun v => (chapter v, verse v, score v)) results).

(** A verse in battlefield language. *)
Definition warrior_text : string :=
  "O warrior, stand firm on the battlefield".

Definition warrior (raw : Q) : Verse :=
  {| score := raw; chapter := 2; verse := 31;
     sanskrit := "sva-dharmam api caveksya";
     english := warrior_text;
     themes := []; is_practical := false;
     context_warning := None; relevance_adjusted := None |}.

(** A verse about mortality, as it leaves the selector. *)
Definition mortal_text : string :=
  "For one who has taken birth, death is certain".

Definition mortal (adjusted : Q) : Verse :=
  {| score := adjusted; chapter := 2; verse := 27;
     sanskrit := "jatasya hi dhruvo mrtyur";
     english := mortal_text;
     themes := ["accepting impermanence"]; is_practical := false;
     context_warning := None; relevance_adjusted := Some adjusted |}.

(** A verse without keywords of any list of the context detector. *)
Definition steady (raw : Q) : Verse :=
  {| score := raw; chapter := 2; verse := 48;
     sanskrit := "yogasthah kuru karmani";
     english := "Be steady in success and failure";
     themes := []; is_practical := true;
     context_warning := None; relevance_adjusted := None |}.

End Samples.

(* ====================================================================== *)
(** * embeddings/query_faiss.py: [load_resources] *)
(* ====================================================================== *)

Module Resources.

(** The two files [load_resources] looks for. *)
Inductive Path : Type :=
| INDEX_PATH
| META_PATH.

Inductive LoadError : Type :=
| FileNotFoundError (path : Path).

Section Loader.

(** What [SentenceTransformer], [faiss.read_index] and [json.load] give. *)
Variables Model Index Metadata : Type.

(** The module globals [_model], [_index], [_metadata]; [None] is Python's
    [None]. *)
Record Globals : Type := mkGlobals {
  _model : option Model;
  _index : option Index;
  _metadata : option Metadata
}.

(** The world outside: the embedding model that the constructor returns,
    and the contents of the two files, [None] when [os.path.exists] is
    false.  A file that exists but cannot be read is not modelled. *)
Record Files : Type := mkFiles {
  sentence_transformer : Model;
  index_file : option Index;
  metadata_file : option Metadata
}.

(** [load_resources()]: the globals after the call, and what the call
    returns or raises.  Assignments made before a [raise] stay. *)
Definition load_resources (fs : Files) (g : Globals)
  : Globals * (LoadError + Model * Index * Metadata) :=
  let model :=
    match _model g with
    | None => sentence_transformer fs
    | Some model => model
    end in
  match
    match _index g with
    | None => index_file fs
    | Some index => Some index
    end
  with
  | None =>
      ({| _model := Some model; _index := None; _metadata := _metadata g |},
       inl (FileNotFoundError INDEX_PATH))
  | Some index =>
      match
        match _metadata g with
        | None => metadata_file fs
        | Some metadata => Some metadata
        end
      with
      | None =>
          ({| _model := Some model; _index := Some index; _metadata := None |},
           inl (FileNotFoundError META_PATH))
      | Some metadata =>
          ({| _model := Some model; _index := Some index;
              _metadata := Some metadata |},
           inr (model, index, metadata))
      end
  end.

End Loader.

(** What a call of [search_gita] can raise: the exception of
    [load_resources], or the one of [metadata[idx]]. *)
Inductive SearchError : Type :=
| LoadFailed (e : LoadError)
| LookupFailed (e : exn).

Section Search.

Variables Model Index : Type.

(** [search_gita] from its first statement on: [load_resources()], whose
    exception leaves the function, then the body that
    [QueryFaiss.search_gita] gives, run on the loaded metadata;
    [encode_search model index] stands for [model.encode] followed by
    [index.search] on the loaded model and index.  The globals after the
    call are those that [load_resources] left. *)
Definition search_gita
           (encode_search : Model -> Index -> string -> Z -> list (Z * Q))
           (fs : Files Model Index (list QueryFaiss.MetaVerse))
           (g : Globals Model Index (list QueryFaiss.MetaVerse))
           (query : string) (top_k : Z) (filter_practical : bool)
  : Globals Model Index (list QueryFaiss.MetaVerse)
    * (SearchError + list Verse) :=
  match load_resources fs g with
  | (g', inl e) => (g', inl (LoadFailed e))
  | (g', inr (model, index, metadata)) =>
      (g',
       match QueryFaiss.search_gita (encode_search model index) metadata
                                    query top_k filter_practical with
       | Ok results => inr results
       | Raise e => inl (LookupFailed e)
       end)
  end.

End Search.

End Resources.

(* ====================================================================== *)
(** * embeddings/buildFaissIndex.py *)
(* ====================================================================== *)

Module BuildFaissIndex.

Import PyStr.
Open Scope string_scope.

Definition get_verse_themes (english_text : string) : list string :=
  let text_lower := lower english_text in
  let themes := [] in
  let themes :=
    QueryFaiss.append_if
      (any_in ["fear"; "afraid"; "anxiety"; "worry"; "dread"; "terror"]
              text_lower)
      "overcoming fear and anxiety" themes in
  let themes :=
    QueryFaiss.append_if
      (any_in ["confus"; "doubt"; "uncertain"; "perplex"; "bewilder"]
              text_lower)
      "finding clarity in confusion" themes in
  let themes :=
    QueryFaiss.append_if
      (any_in ["duty"; "action"; "work"; "perform"; "karma"; "deed"]
              text_lower)
      "understanding duty and action" themes in
  let themes :=
    QueryFaiss.append_if
      (any_in ["mind"; "thought"; "control"; "focus"; "concentrate"]
              text_lower)
      "mastering the mind" themes in
  let themes :=
    QueryFaiss.append_if
      (any_in ["peace"; "calm"; "tranquil"; "serene"; "equanim"] text_lower)
      "achieving inner peace" themes in
  let themes :=
    QueryFaiss.append_if
      (any_in ["detach"; "renounce"; "abandon"; "relinquish"; "let go"]
              text_lower)
      "practicing detachment" themes in
  let themes :=
    QueryFaiss.append_if
      (any_in ["desire"; "attach"; "crav"; "long for"; "passion"] text_lower)
      "managing desires and attachments" themes in
  let themes :=
    QueryFaiss.append_if
      (any_in ["wisdom"; "knowledge"; "understand"; "realize"; "enlighten"]
              text_lower)
      "gaining wisdom and understanding" themes in
  let themes :=
    QueryFaiss.append_if
      (any_in ["strength"; "courage"; "brave"; "valor"; "fortitude"]
              text_lower)
      "building strength and courage" themes in
  let themes :=
    QueryFaiss.append_if
      (any_in ["future"; "destiny"; "fate"; "path"; "journey"] text_lower)
      "navigating life's path" themes in
  let themes :=
    QueryFaiss.append_if
      (any_in ["death"; "die"; "mortal"; "imperien"; "transitory"] text_lower)
      "accepting impermanence" themes in
  let themes :=
    QueryFaiss.append_if
      (any_in ["self"; "soul"; "atman"; "true nature"; "essence"] text_lower)
      "understanding true self" themes in
  themes.

Definition cosmic_keywords : list string :=
  ["cosmic form"; "divine form"; "universes"; "celestial";
   "thousand arms"; "blazing"; "effulgence"; "deity";
   "creation and dissolution"; "brahma"; "vishnu"].

Definition practical_keywords : list string :=
  ["should"; "must"; "one who"; "therefore"; "thus";
   "perform"; "control"; "practice"; "abandon"; "cultivate"].

Definition is_practical_verse (english_text : string) : bool :=
  let text_lower := lower english_text in
  if any_in cosmic_keywords text_lower
  then false
  else any_in practical_keywords text_lower.

(** One entry [v] of the cleaned dataset, as the loop reads it. *)
Record DataVerse : Type := mkDataVerse {
  d_chapter : Z;
  d_verse : Z;
  d_sanskrit : string;
  d_english : string
}.

(** The dictionary appended to [metadata_list] for [v], without its ["id"]
    key, which [search_gita] never reads. *)
Definition metadata_entry (v : DataVerse) : QueryFaiss.MetaVerse :=
  let themes := get_verse_themes (d_english v) in
  {| QueryFaiss.m_chapter := d_chapter v;
     QueryFaiss.m_verse := d_verse v;
     QueryFaiss.m_sanskrit := d_sanskrit v;
     QueryFaiss.m_english := d_english v;
     QueryFaiss.m_themes := Some themes;
     QueryFaiss.m_is_practical := Some (is_practical_verse (d_english v)) |}.

(** [metadata_list] after the loop over [data]. *)
Definition metadata_list (data : list DataVerse) : list QueryFaiss.MetaVerse :=
  map metadata_entry data.

End BuildFaissIndex.

(* ====================================================================== *)
(** * api.py *)
(* ====================================================================== *)

Module Api.

Open Scope string_scope.

(** [raise HTTPException(status_code=..., detail=...)] *)
Inductive HTTPException : Type :=
| mkHTTPException (status_code : nat) (detail : string).

(** Truthiness of the header value: [None] and the empty string are
    false. *)
Definition truthy (api_key : option string) : bool :=
  match api_key with
  | None => false
  | Some EmptyString => false
  | Some (String _ _) => true
  end.

(** [verify_api_key]; [API_KEY] is the value read from the environment at
    start-up (the empty string when the variable is unset), [api_key] the
    [X-API-Key] header ([None] when the request has none). *)
Definition verify_api_key (API_KEY : string) (api_key : option string)
  : HTTPException + string :=
  if negb (truthy api_key)
  then inl (mkHTTPException 401 "Missing API Key")
  else
    match api_key with
    | Some key =>
        if negb (String.eqb key API_KEY)
        then inl (mkHTTPException 403 "Invalid API Key")
        else inr key
    | None => inl (mkHTTPException 401 "Missing API Key")
    end.

(** [f"{n}"] for an integer: its decimal numeral, with a minus sign below
    zero. *)
Definition format_int (n : Z) : string := NilEmpty.string_of_int (Z.to_int n).

(** [get_audio_url]; its arguments are integers already, so [int(chapter)]
    and [int(verse)] change nothing. *)
Definition get_audio_url (chapter verse : Z) : string :=
  "https://gitasupersite.iitk.ac.in/sites/default/files/audio/"
  ++ ("CHAP" ++ format_int chapter ++ "/"
      ++ format_int chapter ++ "-" ++ format_int verse ++ ".MP3").

Record VerseResponse : Type := mkVerseResponse {
  r_id : string;
  r_chapter : Z;
  r_verse : Z;
  r_sanskrit : string;
  r_english : string;
  r_score : Q;
  r_themes : list string;
  r_is_practical : bool;
  r_audio_url : string;
  r_context_warning : option Warning;
  r_relevance_adjusted : option Q
}.

Definition format_verse_response (v : Verse) : VerseResponse :=
  {| r_id := format_int (chapter v) ++ "." ++ format_int (verse v);
     r_chapter := chapter v;
     r_verse := verse v;
     r_sanskrit := sanskrit v;
     r_english := english v;
     r_score := score v;
     r_themes := themes v;
     r_is_practical := is_practical v;
     r_audio_url := get_audio_url (chapter v) (verse v);
     r_context_warning := context_warning v;
     r_relevance_adjusted := Some (adjusted_key v) |}.

(** What the handler of [POST /api/v1/search] does with a validated
    request: the exception of [search_gita] goes through, an empty result
    is the 404, otherwise the body is built from the results.  The clock
    readings of the body are left out; [guidance] holds what
    [reason_over_verses] does and the verse reported as selected. *)
Record QueryRequest : Type := mkQueryRequest {
  question : string;
  top_k : Z;
  include_guidance : bool;
  filter_practical : bool
}.

Record GuidanceResponse : Type := mkGuidanceResponse {
  guidance_text : LlmReasoning.Guidance;
  selected_verse : Z * Z * string
}.

Record SearchResponse : Type := mkSearchResponse {
  query : string;
  enhanced_query : string;
  verses : list VerseResponse;
  guidance : option GuidanceResponse;
  total_verses : nat
}.

Inductive Handled (A : Type) : Type :=
| Returned (body : A)
| Refused (e : HTTPException)
| Unhandled (e : exn).

Arguments Returned {A} body.
Arguments Refused {A} e.
Arguments Unhandled {A} e.

Definition search
           (retrieve : string -> Z -> list (Z * Q))
           (metadata : list QueryFaiss.MetaVerse)
           (request : QueryRequest) : Handled SearchResponse :=
  match
    QueryFaiss.search_gita retrieve metadata (question request)
                           (top_k request) (filter_practical request)
  with
  | Raise e => Unhandled e
  | Ok [] => Refused (mkHTTPException 404 "No verses found")
  | Ok ((first :: others) as results) =>
      let guidance :=
        if include_guidance request
        then Some {| guidance_text :=
                       LlmReasoning.reason_over_verses (question request)
                                                       results;
                     selected_verse :=
                       (chapter first, verse first, english first) |}
        else None in
      Returned {| query := question request;
                  enhanced_query :=
                    QueryFaiss.enhance_query_contextual (question request);
                  verses := map format_verse_response results;
                  guidance := guidance;
                  total_verses :=
                    List.length (map format_verse_response results) |}
  end.

End Api.

(* ====================================================================== *)
(** * Vocabulary of the further properties *)
(* ====================================================================== *)

Module Views.

(** What a candidate carries before the adjuster touches it. *)
Definition own_data (v : Verse)
  : Q * Z * Z * string * string * list string * bool :=
  (score v, chapter v, verse v, sanskrit v, english v, themes v,
   is_practical v).

(** A hit that passes the safety check of [search_gita]. *)
Definition passes_check (A : Type) (metadata : list A) (hit : Z * Q) : bool :=
  (fst hit <? Z.of_nat (List.length metadata))%Z.

(** A label that no index of the list can stand for. *)
Definition below_range (A : Type) (metadata : list A) (hit : Z * Q) : Prop :=
  (fst hit < - Z.of_nat (List.length metadata))%Z.

(** The two flags of the context detector that the reranker reads besides
    [is_universal]. *)
Definition risk_flags (v : Verse) : bool * bool :=
  (LlmReasoning.is_death_focused (LlmReasoning.detect_verse_context (english v)),
   LlmReasoning.is_battlefield (LlmReasoning.detect_verse_context (english v))).

(** Text of ASCII characters only.  On such text [str.lower] changes the
    letters A-Z and nothing else, one character at a time, as
    [PyStr.lower] does. *)
Fixpoint ascii_text (s : string) : bool :=
  match s with
  | EmptyString => true
  | String c s' => (nat_of_ascii c <? 128)%nat && ascii_text s'
  end.

(** The character [c] does not occur in [s]. *)
Fixpoint free_of (c : ascii) (s : string) : Prop :=
  match s with
  | EmptyString => True
  | String d s' => d <> c /\ free_of c s'
  end.

End Views.

(* ====================================================================== *)
(** * Further concrete cases *)
(* ====================================================================== *)

Module Cases.

Import Samples.
Open Scope string_scope.

(** The list that a call returned; empty when it raised. *)
Definition returned (r : result (list Verse)) : list Verse :=
  match r with
  | Ok out => out
  | Raise _ => []
  end.

(** A dataset of two verses: one with practical language, one with a
    cosmic keyword. *)
Definition data2 : list BuildFaissIndex.DataVerse :=
  [ {| BuildFaissIndex.d_chapter := 2; BuildFaissIndex.d_verse := 47;
       BuildFaissIndex.d_sanskrit := "karmany evadhikaras te";
       BuildFaissIndex.d_english :=
         "You should perform your duty without attachment to results" |};
    {| BuildFaissIndex.d_chapter := 11; BuildFaissIndex.d_verse := 5;
       BuildFaissIndex.d_sanskrit := "pasya me partha rupani";
       BuildFaissIndex.d_english :=
         "Behold my divine form, which one should see" |} ].

(** A request as the front end sends it. *)
Definition desk_request : Api.QueryRequest :=
  {| Api.question := desk_query; Api.top_k := 5;
     Api.include_guidance := true; Api.filter_practical := true |}.

(** Five retrieved verses, two of them at or below the threshold of the
    guidance stage. *)
Definition mixed_verses : list Verse :=
  [steady 0.25; warrior 0.55; mortal 0.50; steady 0.62; steady 0.30].

(** Resources that are numbers: nothing loaded, all files present, the
    state after loading, and the files gone. *)
Definition cold : Resources.Globals nat nat nat :=
  {| Resources._model := None; Resources._index := None;
     Resources._metadata := None |}.

Definition files_present : Resources.Files nat nat nat :=
  {| Resources.sentence_transformer := 1%nat;
     Resources.index_file := Some 2%nat;
     Resources.metadata_file := Some 3%nat |}.

Definition files_gone : Resources.Files nat nat nat :=
  {| Resources.sentence_transformer := 1%nat;
     Resources.index_file := None;
     Resources.metadata_file := None |}.

Definition metadata_gone : Resources.Files nat nat nat :=
  {| Resources.sentence_transformer := 1%nat;
     Resources.index_file := Some 2%nat;
     Resources.metadata_file := None |}.

Definition warm : Resources.Globals nat nat nat :=
  {| Resources._model := Some 1%nat; Resources._index := Some 2%nat;
     Resources._metadata := Some 3%nat |}.

(** A first call of [search_gita] in a directory without the index
    files. *)
Definition first_call : Resources.Globals nat nat (list QueryFaiss.MetaVerse) :=
  {| Resources._model := None; Resources._index := None;
     Resources._metadata := None |}.

Definition no_index_files
  : Resources.Files nat nat (list QueryFaiss.MetaVerse) :=
  {| Resources.sentence_transformer := 1%nat;
     Resources.index_file := None;
     Resources.metadata_file := None |}.

(** An index that answers every query with [hits1]. *)
Definition fixed_index : nat -> nat -> string -> Z -> list (Z * Q) :=
  fun _ _ => ranking hits1.

End Cases.

(* ====================================================================== *)
(** * Facts about the stable descending sort *)
(* ====================================================================== *)

Lemma Qltb_lt (x y : Q) : Qltb x y = true <-> x < y.
Proof.
  unfold Qltb. rewrite negb_true_iff.
  split; intro H.
  - apply Qnot_le_lt. intro Hle. apply Qle_bool_iff in Hle. congruence.
  - destruct (Qle_bool y x) eqn:E; [|reflexivity].
    apply Qle_bool_iff in E. exfalso. apply (Qlt_not_le _ _ H E).
Qed.

Lemma Qltb_ge (x y : Q) : Qltb x y = false <-> y <= x.
Proof.
  unfold Qltb. rewrite negb_false_iff. apply Qle_bool_iff.
Qed.

Section StableSort.

Variable A : Type.
Variable key : A -> Q.

Lemma insert_desc_perm (x : A) (l : list A) :
  Permutation (insert_desc key x l) (x :: l).
Proof.
  induction l as [|y l IH]; simpl.
  - reflexivity.
  - destruct (Qltb (key x) (key y)).
    + rewrite IH. apply perm_swap.
    + reflexivity.
Qed.

Lemma sort_desc_perm (l : list A) : Permutation (sort_desc key l) l.
Proof.
  induction l as [|x l IH]; simpl.
  - constructor.
  - rewrite insert_desc_perm. now constructor.
Qed.

Lemma sort_desc_length (l : list A) :
  List.length (sort_desc key l) = List.length l.
Proof. apply Permutation_length, sort_desc_perm. Qed.

Lemma sort_desc_In (l : list A) (x : A) : In x (sort_desc key l) <-> In x l.
Proof.
  split; apply Permutation_in;
    [ apply sort_desc_perm | symmetry; apply sort_desc_perm ].
Qed.

Lemma insert_desc_sorted (x : A) (l : list A) :
  desc key l -> desc key (insert_desc key x l).
Proof.
  unfold desc. induction 1 as [|y l Hl IH Hy]; simpl.
  - repeat constructor.
  - destruct (Qltb (key x) (key y)) eqn:E.
    + constructor; [exact IH|].
      eapply Permutation_Forall; [symmetry; apply insert_desc_perm|].
      constructor; [|exact Hy].
      apply Qltb_lt in E. unfold before. now apply Qlt_le_weak.
    + apply Qltb_ge in E.
      constructor; [now constructor|].
      constructor; [exact E|].
      eapply Forall_impl; [|exact Hy].
      intros z Hz. unfold before in *. eapply Qle_trans; eassumption.
Qed.

Lemma sort_desc_sorted (l : list A) : desc key (sort_desc key l).
Proof.
  induction l as [|x l IH]; simpl.
  - constructor.
  - now apply insert_desc_sorted.
Qed.

(** An element that may stand before the whole list is put in front. *)
Lemma insert_desc_front (x : A) (l : list A) :
  Forall (before key x) l -> insert_desc key x l = x :: l.
Proof.
  destruct l as [|y l]; simpl; [reflexivity|].
  intro H. inversion H as [|? ? Hy _]; subst.
  apply Qltb_ge in Hy. now rewrite Hy.
Qed.

(** Sorting a list that is already in descending order changes nothing. *)
Lemma sort_desc_id (l : list A) : desc key l -> sort_desc key l = l.
Proof.
  induction 1 as [|x l Hl IH Hx]; simpl; [reflexivity|].
  rewrite IH. now apply insert_desc_front.
Qed.

Lemma desc_filter (p : A -> bool) (l : list A) : desc key l -> desc key (filter p l).
Proof.
  induction 1 as [|x l Hl IH Hx]; simpl; [constructor|].
  destruct (p x); [|exact IH].
  constructor; [exact IH|].
  apply Forall_forall. intros y Hy. apply filter_In in Hy.
  rewrite Forall_forall in Hx. now apply Hx.
Qed.

Lemma desc_firstn (n : nat) (l : list A) : desc key l -> desc key (firstn n l).
Proof.
  intro H. revert n.
  induction H as [|x l Hl IH Hx]; intros [|n]; simpl; try constructor.
  - apply IH.
  - apply Forall_forall. intros y Hy.
    rewrite Forall_forall in Hx. apply Hx.
    rewrite <- (firstn_skipn n l). apply in_or_app. now left.
Qed.

(** Filtering commutes with the insertion into a descending list. *)
Lemma filter_insert_desc (p : A -> bool) (x : A) (l : list A) :
  desc key l ->
  filter p (insert_desc key x l)
  = if p x then insert_desc key x (filter p l) else filter p l.
Proof.
  induction 1 as [|y l Hl IH Hy]; simpl.
  - now destruct (p x).
  - destruct (Qltb (key x) (key y)) eqn:E; simpl.
    + rewrite IH. destruct (p y) eqn:Py; simpl.
      * rewrite E. now destruct (p x).
      * reflexivity.
    + destruct (p x) eqn:Px; destruct (p y) eqn:Py; simpl;
        rewrite ?E; try reflexivity.
      symmetry. apply insert_desc_front.
      apply Forall_forall. intros z Hz. apply filter_In in Hz.
      rewrite Forall_forall in Hy. unfold before in *.
      apply Qltb_ge in E.
      eapply Qle_trans; [apply Hy, Hz | exact E].
Qed.

Lemma filter_sort_desc (p : A -> bool) (l : list A) :
  filter p (sort_desc key l) = sort_desc key (filter p l).
Proof.
  induction l as [|x l IH]; simpl; [reflexivity|].
  rewrite filter_insert_desc by apply sort_desc_sorted.
  rewrite IH. now destruct (p x).
Qed.

(** Elements that all have the key [k] are in descending order. *)
Lemma desc_tied (k : Q) (l : list A) :
  desc key (filter (fun a => Qeq_bool (key a) k) l).
Proof.
  induction l as [|x l IH]; simpl; [constructor|].
  destruct (Qeq_bool (key x) k) eqn:Ex; [|exact IH].
  constructor; [exact IH|].
  apply Forall_forall. intros y Hy. apply filter_In in Hy.
  destruct Hy as [_ Ey].
  apply Qeq_bool_iff in Ex. apply Qeq_bool_iff in Ey.
  unfold before. rewrite Ex, Ey. apply Qle_refl.
Qed.

(** Stability: the elements of one key come out of the sort in the order
    in which they went in. *)
Lemma sort_desc_ties (k : Q) (l : list A) :
  filter (fun a => Qeq_bool (key a) k) (sort_desc key l)
  = filter (fun a => Qeq_bool (key a) k) l.
Proof.
  rewrite filter_sort_desc. apply sort_desc_id, desc_tied.
Qed.

End StableSort.

(* ====================================================================== *)
(** * Query contextualizer *)
(* ====================================================================== *)

Section Contextualizer.

Import QueryFaiss Samples.
Open Scope string_scope.

Lemma append_literal_assoc (a b c : string) : (a ++ b) ++ c = a ++ (b ++ c).
Proof.
  induction a as [|x a IH]; simpl; [reflexivity|]. now rewrite IH.
Qed.

(** C9. The enhanced query is the prefix "Practical life guidance: ",
    the raw query and, when a category is true, the focus phrases of
    exactly the true categories in the order emotional, decision, career,
    relationship, existential; with no category it is the prefixed query
    alone. *)
Theorem enhance_query_contextual_enrich :
  (forall query : string,
      enhance_query_contextual query
      = Spec.enrich query (categorize_problem query))
  /\ (forall query : string,
        Spec.focus_phrases (categorize_problem query) = [] ->
        enhance_query_contextual query = "Practical life guidance: " ++ query)
  /\ enhance_query_contextual future_query
     = "Practical life guidance: I feel confused and afraid about my future. Focus on: managing fear and anxiety, making clear decisions, finding purpose and direction".
Proof.
  assert (E : forall query,
             enhance_query_contextual query
             = Spec.enrich query (categorize_problem query)).
  { intro query.
    unfold enhance_query_contextual, Spec.enrich, Spec.focus_phrases,
      Spec.focus_table, append_if, PyStr.join.
    destruct (categorize_problem query) as [e d r c x].
    cbn [emotional decision relationship career existential].
    destruct e, d, r, c, x; cbn [filter fst snd map app];
      try reflexivity; apply append_literal_assoc. }
  split; [exact E|]. split.
  - intros query H. rewrite E. unfold Spec.enrich. now rewrite H.
  - vm_compute. reflexivity.
Qed.

Lemma enhance_query_contextual_enrich_witness :
  enhance_query_contextual greeting_query
  = "Practical life guidance: " ++ greeting_query.
Proof.
  apply (proj1 (proj2 enhance_query_contextual_enrich)).
  vm_compute. reflexivity.
Defined.

End Contextualizer.

(* ====================================================================== *)
(** * Context-aware relevance adjuster *)
(* ====================================================================== *)

Section Adjuster.

Import QueryFaiss Samples.

(** The adjuster re-orders the adjusted candidates and does nothing else. *)
Lemma filter_context_specific_verses_perm (results : list Verse) (q : string) :
  Permutation (filter_context_specific_verses results q)
              (map (adjust_verse q) results).
Proof. apply sort_desc_perm. Qed.

Lemma filter_context_specific_verses_In (results : list Verse) (q : string) (v' : Verse) :
  In v' (filter_context_specific_verses results q)
  <-> exists v, In v results /\ v' = adjust_verse q v.
Proof.
  unfold filter_context_specific_verses. rewrite sort_desc_In, in_map_iff.
  split; intros [v [H1 H2]]; exists v; auto.
Qed.

Lemma filter_context_specific_verses_sorted (results : list Verse) (q : string) :
  desc adjusted_key (filter_context_specific_verses results q).
Proof. apply sort_desc_sorted. Qed.

Lemma filter_context_specific_verses_length (results : list Verse) (q : string) :
  List.length (filter_context_specific_verses results q) = List.length results.
Proof.
  unfold filter_context_specific_verses.
  now rewrite sort_desc_length, length_map.
Qed.

(** The three outcomes of the loop body. *)
Lemma adjust_verse_cases (q : string) (v : Verse) :
  (context_warning (adjust_verse q v) = Some battlefield
   /\ relevance_adjusted (adjust_verse q v) = Some (score v * 0.75))
  \/ (context_warning (adjust_verse q v) = Some death_rebirth
      /\ relevance_adjusted (adjust_verse q v) = Some (score v * 0.80))
  \/ (context_warning (adjust_verse q v) = None
      /\ relevance_adjusted (adjust_verse q v) = Some (score v)).
Proof.
  unfold adjust_verse.
  destruct (_ && _); [now left|].
  destruct (_ && _); [right; now left|].
  right; now right.
Qed.

(** A fact that holds in each of the three branches of the loop body. *)
Ltac by_adjust_branch :=
  unfold adjust_verse;
  destruct (_ && _); [reflexivity|];
  destruct (_ && _); reflexivity.

Lemma adjust_verse_score (q : string) (v : Verse) :
  score (adjust_verse q v) = score v.
Proof. by_adjust_branch. Qed.

Lemma adjust_verse_ref (q : string) (v : Verse) :
  Spec.verseRef (adjust_verse q v) = Spec.verseRef v.
Proof. by_adjust_branch. Qed.

Lemma adjust_verse_practical (q : string) (v : Verse) :
  is_practical (adjust_verse q v) = is_practical v.
Proof. by_adjust_branch. Qed.

(** C4, amended.  For every candidate and original query the adjuster
    applies the first matching branch: battlefield text and a query that
    is neither a social concern nor a confrontation gives the warning
    battlefield and rawScore x 0.75; otherwise death-focused text and a
    query that is not existential gives death_rebirth and rawScore x 0.80;
    otherwise no warning and the raw score.  This holds of exact products
    and of the rounded products of binary64 scores.  A battlefield
    candidate whose raw score is the float 0.55 gets, under the desk-job
    query, the float 0.41250000000000003, which is above the float
    0.4125. *)
#[warnings="-inexact-float"]
Theorem adjust_verse_first_match :
  (forall (q : string) (v : Verse),
      (context_warning (adjust_verse q v),
       relevance_adjusted (adjust_verse q v))
      = (fst (Spec.adjust (is_battlefield (PyStr.lower (english v)))
                          (is_death_focused (PyStr.lower (english v)))
                          (is_social_concern q) (is_confrontation q)
                          (existential (categorize_problem q)) (score v)),
         Some (snd (Spec.adjust (is_battlefield (PyStr.lower (english v)))
                                (is_death_focused (PyStr.lower (english v)))
                                (is_social_concern q) (is_confrontation q)
                                (existential (categorize_problem q))
                                (score v)))))
  /\ (forall (results : list Verse) (q : string),
        Permutation (filter_context_specific_verses results q)
                    (map (adjust_verse q) results))
  /\ (forall (q verse_english : string) (raw : float),
        Binary64.adjust_verse q verse_english raw
        = Spec.adjust64 (is_battlefield (PyStr.lower verse_english))
                        (is_death_focused (PyStr.lower verse_english))
                        (is_social_concern q) (is_confrontation q)
                        (existential (categorize_problem q)) raw)
  /\ (forall (q : string) (v : Verse) (raw : float),
        fst (Binary64.adjust_verse q (english v) raw)
        = context_warning (adjust_verse q v))
  /\ is_battlefield (PyStr.lower warrior_text) = true
  /\ is_social_concern desk_query = false
  /\ is_confrontation desk_query = false
  /\ Binary64.adjust_verse desk_query warrior_text 0.55%float
     = (Some battlefield, 0.41250000000000003%float)
  /\ PrimFloat.ltb 0.4125%float 0.41250000000000003%float = true.
Proof.
  split.
  { intros q v. unfold adjust_verse, Spec.adjust.
    destruct (is_battlefield _), (is_social_concern q), (is_confrontation q);
      cbn [andb orb negb]; try reflexivity;
      destruct (is_death_focused _), (existential _); reflexivity. }
  split; [apply filter_context_specific_verses_perm|].
  split.
  { intros q t raw. unfold Binary64.adjust_verse, Spec.adjust64.
    destruct (is_battlefield _), (is_social_concern q), (is_confrontation q);
      cbn [andb orb negb]; reflexivity. }
  split.
  { intros q v raw. unfold Binary64.adjust_verse, adjust_verse.
    destruct (is_battlefield _ && _); [reflexivity|].
    destruct (is_death_focused _ && _); reflexivity. }
  repeat split; vm_compute; reflexivity.
Qed.

(** C4 as stated fails on its own example: the adjusted score that the
    code stores for the raw score 0.55 is not the float 0.4125 but its
    successor.  (A score that has come through the index is a float32
    number; for the one nearest to 0.55, 0x1.19999ap-1, the adjusted
    score is 0x1.a66667p-2, printed 0.41250000894069672.) *)
#[warnings="-inexact-float"]
Lemma adjusted_score_above_0_4125 :
  fst (Binary64.adjust_verse desk_query warrior_text 0.55%float)
  = Some battlefield
  /\ snd (Binary64.adjust_verse desk_query warrior_text 0.55%float)
     = PrimFloat.next_up 0.4125%float
  /\ PrimFloat.eqb
       (snd (Binary64.adjust_verse desk_query warrior_text 0.55%float))
       0.4125%float = false
  /\ snd (Binary64.adjust_verse desk_query warrior_text 0.55%float)
     <> 0.4125%float
  /\ Binary64.adjust_verse desk_query warrior_text 0x1.19999ap-1%float
     = (Some battlefield, 0x1.a66667p-2%float)
  /\ PrimFloat.ltb 0.4125%float 0x1.a66667p-2%float = true.
Proof.
  split; [vm_compute; reflexivity|].
  split; [vm_compute; reflexivity|].
  match goal with
  | |- ?differs /\ _ => assert (E : differs) by (vm_compute; reflexivity)
  end.
  split; [exact E|].
  split; [|split; vm_compute; reflexivity].
  intro H. rewrite H in E. vm_compute in E. discriminate.
Qed.

(** C3, amended.  A candidate without warning keeps its raw score; a
    candidate with a warning and a positive raw score gets a strictly
    lower adjusted score; with a raw score of zero or below the adjusted
    score is not lower. *)
Theorem warning_lowers_positive_score
        (results : list Verse) (q : string) (v : Verse) :
  In v (filter_context_specific_verses results q) ->
  (context_warning v = None -> relevance_adjusted v = Some (score v))
  /\ (context_warning v <> None -> 0 < score v -> adjusted_key v < score v)
  /\ (context_warning v <> None -> score v <= 0 -> score v <= adjusted_key v).
Proof.
  intro H. apply filter_context_specific_verses_In in H.
  destruct H as [v0 [_ ->]].
  unfold adjusted_key. rewrite adjust_verse_score.
  destruct (adjust_verse_cases q v0) as [[W R]|[[W R]|[W R]]];
    rewrite W, R; repeat split; intros; try congruence; lra.
Qed.

Lemma warning_lowers_positive_score_witness :
  adjusted_key (adjust_verse desk_query (warrior 0.55))
  < score (adjust_verse desk_query (warrior 0.55)).
Proof.
  destruct (@warning_lowers_positive_score
              [warrior 0.55] desk_query
              (adjust_verse desk_query (warrior 0.55))) as [_ [H _]].
  - vm_compute. left. reflexivity.
  - apply H.
    + vm_compute. discriminate.
    + vm_compute. reflexivity.
Defined.

(** C3 as stated fails: a battlefield-flagged candidate with a negative
    raw score carries a warning and an adjusted score above the raw
    one. *)
Lemma warning_raises_negative_score :
  exists v : Verse,
    In v (filter_context_specific_verses [warrior (-0.2)] desk_query)
    /\ context_warning v = Some battlefield
    /\ score v < adjusted_key v
    /\ ~ adjusted_key v < score v.
Proof.
  exists (adjust_verse desk_query (warrior (-0.2))).
  split; [vm_compute; left; reflexivity|].
  split; [vm_compute; reflexivity|].
  split; [vm_compute; reflexivity|].
  vm_compute. discriminate.
Qed.

End Adjuster.

(* ====================================================================== *)
(** * Vector retriever: from labels to result dictionaries *)
(* ====================================================================== *)

Section Retriever.

Import QueryFaiss Samples.

Variable metadata : list MetaVerse.

(** The safety check: a label at or beyond the end of the corpus is
    skipped. *)
Lemma build_results_skip (idx : Z) (sc : Q) (hits : list (Z * Q)) :
  (Z.of_nat (List.length metadata) <= idx)%Z ->
  build_results metadata ((idx, sc) :: hits) = build_results metadata hits.
Proof.
  intro H. simpl.
  destruct (idx >=? Z.of_nat (List.length metadata))%Z eqn:E;
    [reflexivity | lia].
Qed.

Lemma py_getitem_in_range (idx : Z) :
  (0 <= idx < Z.of_nat (List.length metadata))%Z ->
  exists m, nth_error metadata (Z.to_nat idx) = Some m
            /\ py_getitem metadata idx = Ok m.
Proof.
  intro H. unfold py_getitem.
  destruct (idx <? 0)%Z eqn:E1; [lia|].
  destruct ((0 <=? idx) && (idx <? Z.of_nat (List.length metadata)))%Z eqn:E2;
    [|lia].
  destruct (nth_error metadata (Z.to_nat idx)) as [m|] eqn:E3.
  - now exists m.
  - apply nth_error_None in E3. lia.
Qed.

(** On labels that address the corpus the loop raises nothing and builds
    one dictionary per hit, in order. *)
Lemma build_results_in_range (hits : list (Z * Q)) :
  Forall (Spec.in_range metadata) hits ->
  exists results,
    build_results metadata hits = Ok results
    /\ Forall2 (fun hit r =>
                  score r = snd hit
                  /\ exists m, nth_error metadata (Z.to_nat (fst hit)) = Some m
                               /\ Spec.verseRef r = Spec.metaRef m)
               hits results.
Proof.
  induction 1 as [|[idx sc] hits Hin _ IH].
  - exists []. split; [reflexivity | constructor].
  - destruct IH as [results [E F]].
    unfold Spec.in_range in Hin. simpl in Hin.
    destruct (py_getitem_in_range Hin) as [m [Hm Hget]].
    eexists. split.
    + simpl. destruct (idx >=? Z.of_nat (List.length metadata))%Z eqn:E1; [lia|].
      rewrite Hget, E. simpl. reflexivity.
    + constructor; [|exact F]. simpl. split; [reflexivity|].
      exists m. now split.
Qed.

(** Distinct labels over a corpus of distinct verses give distinct
    verses. *)
Lemma build_results_NoDup (hits : list (Z * Q)) (results : list Verse) :
  NoDup (map Spec.metaRef metadata) ->
  NoDup (map fst hits) ->
  Forall (Spec.in_range metadata) hits ->
  build_results metadata hits = Ok results ->
  NoDup (map Spec.verseRef results).
Proof.
  intros Hmeta Hhits Hrange E.
  destruct (build_results_in_range Hrange) as [results' [E' F]].
  rewrite E in E'. injection E' as <-.
  clear E. induction F as [|[idx sc] r hits results [_ [m [Hm Hr]]] F IH];
    simpl; [constructor|].
  inversion Hhits as [|? ? Hnotin Hhits']; subst.
  inversion Hrange as [|? ? Hidx Hrange']; subst.
  constructor; [|now apply IH].
  intro Hr'. apply in_map_iff in Hr'. destruct Hr' as [r' [Eq Hin']].
  apply Hnotin. clear IH Hhits Hhits' Hnotin Hrange.
  induction F as [|[idx' sc'] r'' hits results [_ [m' [Hm' Hr'']]] F IH];
    simpl in *; [contradiction|].
  inversion Hrange' as [|? ? Hidx' Hrange'']; subst.
  destruct Hin' as [->|Hin']; [|right; now apply IH].
  left.
  unfold Spec.in_range in Hidx, Hidx'. simpl in *.
  assert (Hnat : Z.to_nat idx' = Z.to_nat idx).
  { rewrite NoDup_nth_error in Hmeta. apply Hmeta.
    - rewrite length_map. lia.
    - rewrite !nth_error_map, Hm, Hm'. simpl. congruence. }
  lia.
Qed.

(** Hits that fail the safety check leave no trace in the loop. *)
Lemma build_results_checked (hits : list (Z * Q)) :
  build_results metadata hits
  = build_results metadata (filter (Views.passes_check metadata) hits).
Proof.
  induction hits as [|[idx sc] hits IH]; [reflexivity|].
  simpl. unfold Views.passes_check at 1. simpl.
  destruct (idx >=? Z.of_nat (List.length metadata))%Z eqn:E1;
    destruct (idx <? Z.of_nat (List.length metadata))%Z eqn:E2;
    try lia.
  - exact IH.
  - simpl. rewrite E1, IH. reflexivity.
Qed.

(** A label that is not negative and passes the safety check addresses
    the corpus. *)
Lemma checked_in_range (hits : list (Z * Q)) :
  Forall (fun hit => (0 <= fst hit)%Z) hits ->
  Forall (Spec.in_range metadata) (filter (Views.passes_check metadata) hits).
Proof.
  intro H. apply Forall_forall. intros hit Hin.
  apply filter_In in Hin. destruct Hin as [Hin Hp].
  rewrite Forall_forall in H. specialize (H hit Hin).
  unfold Views.passes_check in Hp. apply Z.ltb_lt in Hp.
  unfold Spec.in_range. lia.
Qed.

(** The label -1 reads the last entry of a corpus that has one. *)
Lemma py_getitem_minus_one (A : Type) (l : list A) (a : A) :
  py_getitem (l ++ [a]) (-1) = Ok a.
Proof.
  unfold py_getitem. rewrite length_app. simpl List.length.
  replace ((-1 <? 0)%Z) with true by reflexivity.
  replace (-1 + Z.of_nat (List.length l + 1))%Z
    with (Z.of_nat (List.length l)) by lia.
  assert (E : ((0 <=? Z.of_nat (List.length l))
               && (Z.of_nat (List.length l) <? Z.of_nat (List.length l + 1)))%Z
              = true).
  { apply andb_true_iff. split; [apply Z.leb_le | apply Z.ltb_lt]; lia. }
  rewrite E, Nat2Z.id, nth_error_app2 by apply Nat.le_refl.
  now rewrite Nat.sub_diag.
Qed.

(** The loop raises only on a label below [-len]. *)
Lemma build_results_total (hits : list (Z * Q)) :
  Forall (fun hit => (- Z.of_nat (List.length metadata) <= fst hit)%Z) hits ->
  exists results, build_results metadata hits = Ok results.
Proof.
  induction 1 as [|[idx sc] hits Hidx _ [results E]]; simpl in *.
  - now exists [].
  - destruct (idx >=? Z.of_nat (List.length metadata))%Z eqn:E1;
      [now exists results|].
    unfold py_getitem.
    destruct (idx <? 0)%Z eqn:E2.
    + destruct ((0 <=? idx + Z.of_nat (List.length metadata))
                && (idx + Z.of_nat (List.length metadata)
                    <? Z.of_nat (List.length metadata)))%Z eqn:E3; [|lia].
      destruct (nth_error metadata _) as [m|] eqn:E4.
      * simpl. rewrite E. simpl. eauto.
      * apply nth_error_None in E4. lia.
    + destruct ((0 <=? idx) && (idx <? Z.of_nat (List.length metadata)))%Z
               eqn:E3; [|lia].
      destruct (nth_error metadata _) as [m|] eqn:E4.
      * simpl. rewrite E. simpl. eauto.
      * apply nth_error_None in E4. lia.
Qed.

End Retriever.

(** C2. What the code does with labels outside the corpus: a label at or
    beyond the end is dropped; the label -1 that the index reports for a
    missing neighbour is not dropped but read as the last verse of the
    corpus, whatever the corpus; on a corpus of one verse searched for two
    neighbours that verse is returned twice; on an empty corpus the same
    label raises [IndexError]. *)
Theorem missing_neighbour_not_dropped :
  (forall (metadata : list QueryFaiss.MetaVerse) (idx : Z) (sc : Q)
          (hits : list (Z * Q)),
      (Z.of_nat (List.length metadata) <= idx)%Z ->
      QueryFaiss.build_results metadata ((idx, sc) :: hits)
      = QueryFaiss.build_results metadata hits)
  /\ (forall (metadata : list QueryFaiss.MetaVerse) (m : QueryFaiss.MetaVerse)
             (sc : Q),
        exists r,
          QueryFaiss.build_results (metadata ++ [m]) [((-1)%Z, sc)] = Ok [r]
          /\ Spec.verseRef r = Spec.metaRef m /\ score r = sc)
  /\ Samples.summary
       (QueryFaiss.search_gita (Samples.ranking Samples.hits1) Samples.corpus1
                               Samples.desk_query 2 true)
     = Ok [(2%Z, 47%Z, 0.5);
           (2%Z, 47%Z, - 340282346638528859811704183484516925440)]
  /\ QueryFaiss.search_gita (Samples.ranking Samples.hits1) []
                            Samples.desk_query 2 true
     = Raise IndexError.
Proof.
  split; [intros; now apply build_results_skip|].
  split.
  { intros metadata m sc. eexists. split.
    - simpl. rewrite py_getitem_minus_one.
      destruct (-1 >=? _)%Z eqn:E; [|reflexivity].
      apply Z.geb_le in E. pose proof (Nat2Z.is_nonneg
                                         (List.length (metadata ++ [m]))).
      lia.
    - split; reflexivity. }
  split; vm_compute; reflexivity.
Qed.

Lemma missing_neighbour_not_dropped_witness :
  QueryFaiss.build_results Samples.corpus1 [(1%Z, 0.4); (0%Z, 0.5)]
  = QueryFaiss.build_results Samples.corpus1 [(0%Z, 0.5)].
Proof.
  apply (proj1 missing_neighbour_not_dropped). simpl. lia.
Defined.

(* ====================================================================== *)
(** * Practicality selector *)
(* ====================================================================== *)

Section Selector.

Import QueryFaiss Samples.

Lemma list_eqb_refl (A : Type) (eqb : A -> A -> bool) (l : list A) :
  (forall a, eqb a a = true) -> list_eqb eqb l l = true.
Proof.
  intro H. induction l as [|a l IH]; simpl; [reflexivity|].
  now rewrite H, IH.
Qed.

Lemma verse_eqb_refl (r : Verse) : verse_eqb r r = true.
Proof.
  unfold verse_eqb.
  rewrite !Z.eqb_refl, !String.eqb_refl, Bool.eqb_reflx.
  rewrite list_eqb_refl by apply String.eqb_refl.
  assert (Hq : forall x, Qeq_bool x x = true)
    by (intro x; apply Qeq_bool_iff; reflexivity).
  rewrite Hq.
  destruct (context_warning r) as [[|]|], (relevance_adjusted r);
    simpl; now rewrite ?Hq.
Qed.

(** Equal dictionaries are ideal together. *)
Lemma verse_eqb_is_ideal (r1 r2 : Verse) :
  verse_eqb r1 r2 = true -> is_ideal r1 = is_ideal r2.
Proof.
  unfold verse_eqb, is_ideal. intro H.
  repeat (apply andb_true_iff in H; destruct H as [H ?]).
  match goal with
  | Hp : Bool.eqb _ _ = true |- _ => apply Bool.eqb_prop in Hp; rewrite Hp
  end.
  destruct (context_warning r1), (context_warning r2);
    simpl in *; congruence.
Qed.

(** The candidates that are "not in" the ideal list are the candidates
    that are not ideal. *)
Lemma rest_not_ideal (results : list Verse) :
  filter (fun r => negb (py_in r (filter is_ideal results))) results
  = filter Spec.not_ideal results.
Proof.
  apply filter_ext_in. intros r Hr. unfold Spec.not_ideal. f_equal.
  unfold py_in. destruct (is_ideal r) eqn:E.
  - apply existsb_exists. exists r. split; [|apply verse_eqb_refl].
    apply filter_In. now split.
  - destruct (existsb _ _) eqn:Ex; [|reflexivity].
    apply existsb_exists in Ex. destruct Ex as [r' [Hin Heq]].
    apply filter_In in Hin. destruct Hin as [_ Hideal].
    apply verse_eqb_is_ideal in Heq. congruence.
Qed.

Lemma filter_filter_same (A : Type) (p : A -> bool) (l : list A) :
  filter p (filter p l) = filter p l.
Proof.
  induction l as [|a l IH]; simpl; [reflexivity|].
  destruct (p a) eqn:E; simpl; rewrite ?E, IH; reflexivity.
Qed.

Lemma filter_none (A : Type) (p : A -> bool) (l : list A) :
  Forall (fun a => p a = false) l -> filter p l = [].
Proof.
  induction 1 as [|a l Ha _ IH]; simpl; [reflexivity|]. now rewrite Ha.
Qed.

Lemma filter_all (A : Type) (p : A -> bool) (l : list A) :
  Forall (fun a => p a = true) l -> filter p l = l.
Proof.
  induction 1 as [|a l Ha _ IH]; simpl; [reflexivity|]. now rewrite Ha, IH.
Qed.

Lemma Forall_filter_true (A : Type) (p : A -> bool) (l : list A) :
  Forall (fun a => p a = true) (filter p l).
Proof. apply Forall_forall. intros a Ha. now apply filter_In in Ha. Qed.

Lemma Forall_firstn (A : Type) (P : A -> Prop) (n : nat) (l : list A) :
  Forall P l -> Forall P (firstn n l).
Proof.
  intro H. apply Forall_forall. intros a Ha.
  rewrite Forall_forall in H. apply H.
  rewrite <- (firstn_skipn n l). apply in_or_app. now left.
Qed.

Lemma partition_perm (A : Type) (p : A -> bool) (l : list A) :
  Permutation (filter p l ++ filter (fun a => negb (p a)) l)%list l.
Proof.
  induction l as [|a l IH]; simpl; [constructor|].
  destruct (p a); simpl.
  - now constructor.
  - symmetry. apply Permutation_cons_app. now symmetry.
Qed.

Lemma partition_length (A : Type) (p : A -> bool) (l : list A) :
  (List.length (filter p l) + List.length (filter (fun a => negb (p a)) l)
   = List.length l)%nat.
Proof.
  rewrite <- length_app. apply Permutation_length, partition_perm.
Qed.

(** The selector written with the two partitions. *)
Lemma select_practical_true (results : list Verse) :
  select_practical true results
  = if (5 <=? List.length (filter is_ideal results))%nat
    then firstn 5 (filter is_ideal results)
    else (filter is_ideal results
          ++ firstn (5 - List.length (filter is_ideal results))
                    (filter Spec.not_ideal results))%list.
Proof.
  unfold select_practical. rewrite rest_not_ideal.
  destruct (5 <=? _)%nat eqn:E; [reflexivity|].
  apply Nat.leb_gt in E.
  rewrite firstn_app, firstn_all2 by lia. reflexivity.
Qed.

Lemma select_practical_length (b : bool) (results : list Verse) :
  (List.length (select_practical b results) <= 5)%nat.
Proof.
  unfold select_practical.
  destruct b; [destruct (5 <=? _)%nat|]; apply firstn_le_length.
Qed.

(** Cutting or thinning a list keeps the images of its elements distinct. *)
Lemma distinct_firstn (A B : Type) (ref : A -> B) (n : nat) (xs : list A) :
  NoDup (map ref xs) -> NoDup (map ref (firstn n xs)).
Proof.
  intro H. rewrite <- (firstn_skipn n xs), map_app in H.
  now apply NoDup_app_remove_r in H.
Qed.

Lemma distinct_filter (A B : Type) (ref : A -> B) (keep : A -> bool) (xs : list A) :
  NoDup (map ref xs) -> NoDup (map ref (filter keep xs)).
Proof.
  intro H. induction xs as [|x xs IH]; simpl in *; [exact H|].
  inversion H as [|? ? Hfresh Hxs]; subst.
  destruct (keep x); simpl; [|now apply IH].
  constructor; [|now apply IH].
  intro Hin. apply Hfresh.
  apply in_map_iff in Hin. destruct Hin as [y [Hy Hf]].
  apply filter_In in Hf. apply in_map_iff. exists y. now split.
Qed.

Lemma select_practical_NoDup (B : Type) (f : Verse -> B) (b : bool)
      (results : list Verse) :
  NoDup (map f results) -> NoDup (map f (select_practical b results)).
Proof.
  intro H. unfold select_practical. destruct b.
  - destruct (5 <=? _)%nat.
    + now apply distinct_firstn, distinct_filter.
    + apply distinct_firstn. rewrite rest_not_ideal.
      eapply Permutation_NoDup; [|exact H].
      apply Permutation_map. symmetry. apply partition_perm.
  - now apply distinct_firstn.
Qed.

End Selector.

(* ====================================================================== *)
(** * [search_gita]: the returned list *)
(* ====================================================================== *)

Section SearchGita.

Import QueryFaiss Samples.

Variable retrieve : string -> Z -> list (Z * Q).
Variable metadata : list MetaVerse.
Variable query : string.
Variable top_k : Z.

(** [search_gita] after the loop has built [results]. *)
Lemma search_gita_built (filter_practical : bool) (results : list Verse) :
  build_results metadata (retrieve (enhance_query_contextual query) top_k)
  = Ok results ->
  search_gita retrieve metadata query top_k filter_practical
  = Ok (sort_desc adjusted_key
          (select_practical filter_practical
             (filter_context_specific_verses results query))).
Proof. unfold search_gita. now intros ->. Qed.

Lemma search_gita_inv (filter_practical : bool) (out : list Verse) :
  search_gita retrieve metadata query top_k filter_practical = Ok out ->
  exists results,
    build_results metadata (retrieve (enhance_query_contextual query) top_k)
    = Ok results
    /\ out = sort_desc adjusted_key
               (select_practical filter_practical
                  (filter_context_specific_verses results query)).
Proof.
  unfold search_gita.
  destruct (build_results _ _) as [results|e]; simpl; [|discriminate].
  intro H. injection H as <-. now exists results.
Qed.

(** C5. With the practical filter on and at least five ideal candidates
    (practical, no warning) among the adjusted candidates, the returned
    list is the first five ideal candidates in adjusted-score order, and
    nothing else. *)
Theorem search_gita_quota_filled (results : list Verse) :
  build_results metadata (retrieve (enhance_query_contextual query) top_k)
  = Ok results ->
  (5 <= List.length
          (filter is_ideal (filter_context_specific_verses results query)))%nat ->
  search_gita retrieve metadata query top_k true
  = Ok (firstn 5 (filter is_ideal
                         (filter_context_specific_verses results query)))
  /\ Forall (fun r => is_ideal r = true)
            (firstn 5 (filter is_ideal
                              (filter_context_specific_verses results query)))
  /\ Spec.by_adjusted_desc
       (firstn 5 (filter is_ideal
                         (filter_context_specific_verses results query)))
  /\ List.length
       (firstn 5 (filter is_ideal
                         (filter_context_specific_verses results query)))
     = 5%nat.
Proof.
  intros Hbuild Hlen.
  assert (Hsorted : desc adjusted_key
                      (firstn 5 (filter is_ideal
                        (filter_context_specific_verses results query)))).
  { apply desc_firstn, desc_filter, filter_context_specific_verses_sorted. }
  repeat split.
  - rewrite (search_gita_built true Hbuild), select_practical_true.
    apply Nat.leb_le in Hlen. rewrite Hlen.
    now rewrite sort_desc_id.
  - apply Forall_firstn, Forall_filter_true.
  - exact Hsorted.
  - rewrite length_firstn. lia.
Qed.

(** C1, amended.  With the practical filter on and fewer than five ideal
    candidates, the returned list holds every ideal candidate and the
    highest-scored other candidates up to five entries in all, each group
    in adjusted-score order; the list as a whole is in adjusted-score
    order, whatever group an entry belongs to.  The order of entries of
    one adjusted score is fixed too: the ideal ones first, then the
    others, each group as the adjuster left it. *)
Theorem search_gita_quota_backfilled (results : list Verse) :
  build_results metadata (retrieve (enhance_query_contextual query) top_k)
  = Ok results ->
  (List.length
     (filter is_ideal (filter_context_specific_verses results query)) < 5)%nat ->
  exists out,
    search_gita retrieve metadata query top_k true = Ok out
    /\ filter is_ideal out
       = filter is_ideal (filter_context_specific_verses results query)
    /\ filter Spec.not_ideal out
       = firstn (5 - List.length
                       (filter is_ideal
                               (filter_context_specific_verses results query)))
                (filter Spec.not_ideal
                        (filter_context_specific_verses results query))
    /\ Spec.by_adjusted_desc out
    /\ List.length out = Nat.min 5 (List.length results)
    /\ (forall k : Q,
          filter (Spec.scored k) out
          = filter (Spec.scored k)
                   (filter is_ideal
                           (filter_context_specific_verses results query)
                    ++ firstn (5 - List.length
                                     (filter is_ideal
                                             (filter_context_specific_verses
                                                results query)))
                              (filter Spec.not_ideal
                                      (filter_context_specific_verses
                                         results query)))%list).
Proof.
  intros Hbuild Hlen.
  pose proof (filter_context_specific_verses_length results query) as Hcl.
  set (cands := filter_context_specific_verses results query) in *.
  assert (Hc : desc adjusted_key cands)
    by apply filter_context_specific_verses_sorted.
  eexists. split; [apply (search_gita_built true Hbuild)|].
  fold cands. rewrite select_practical_true.
  destruct (5 <=? _)%nat eqn:E; [apply Nat.leb_le in E; lia|].
  set (I := filter is_ideal cands) in *.
  set (R := firstn (5 - List.length I) (filter Spec.not_ideal cands)).
  assert (HI : Forall (fun r => is_ideal r = true) I)
    by apply Forall_filter_true.
  assert (HR : Forall (fun r => Spec.not_ideal r = true) R)
    by apply Forall_firstn, Forall_filter_true.
  repeat split.
  - rewrite filter_sort_desc, filter_app.
    rewrite (filter_all _ HI), filter_none, app_nil_r.
    + apply sort_desc_id, desc_filter, Hc.
    + eapply Forall_impl; [|exact HR].
      unfold Spec.not_ideal. intros r Hr.
      now apply negb_true_iff in Hr.
  - rewrite filter_sort_desc, filter_app.
    rewrite (filter_all _ HR), filter_none; simpl.
    + apply sort_desc_id, desc_firstn, desc_filter, Hc.
    + eapply Forall_impl; [|exact HI].
      unfold Spec.not_ideal. intros r Hr. now rewrite Hr.
  - apply sort_desc_sorted.
  - rewrite sort_desc_length, length_app. unfold R.
    rewrite length_firstn.
    pose proof (partition_length is_ideal cands) as Hp.
    fold I in Hp. unfold Spec.not_ideal. lia.
  - intro k. apply (sort_desc_ties adjusted_key k).
Qed.

(** C6.  The returned list has at most five entries.  Its verse
    identities are pairwise distinct when the corpus stores each verse
    once and the index reports pairwise distinct labels none of which is
    negative (a label at or beyond the end of the corpus is dropped).
    The label -1 of a missing neighbour breaks it: a corpus of one verse
    searched for two neighbours gives that verse twice. *)
Theorem search_gita_bounded_distinct (filter_practical : bool) :
  (forall out,
      search_gita retrieve metadata query top_k filter_practical = Ok out ->
      (0 <= List.length out <= 5)%nat)
  /\ (NoDup (map Spec.metaRef metadata) ->
      NoDup (map fst (retrieve (enhance_query_contextual query) top_k)) ->
      Forall (fun hit => (0 <= fst hit)%Z)
             (retrieve (enhance_query_contextual query) top_k) ->
      exists out,
        search_gita retrieve metadata query top_k filter_practical = Ok out
        /\ NoDup (map Spec.verseRef out))
  /\ (NoDup (map Spec.metaRef Samples.corpus1)
      /\ exists out,
          search_gita (Samples.ranking Samples.hits1) Samples.corpus1
                      Samples.desk_query 2 filter_practical = Ok out
          /\ map Spec.verseRef out = [(2%Z, 47%Z); (2%Z, 47%Z)]
          /\ ~ NoDup (map Spec.verseRef out)).
Proof.
  split; [|split].
  - intros out H. apply search_gita_inv in H.
    destruct H as [results [_ ->]].
    rewrite sort_desc_length.
    pose proof (select_practical_length filter_practical
                  (filter_context_specific_verses results query)).
    lia.
  - intros Hmeta Hhits Hlabels.
    pose proof (checked_in_range metadata Hlabels) as Hrange.
    destruct (build_results_in_range Hrange) as [results [E _]].
    rewrite <- build_results_checked in E.
    eexists. split; [apply (search_gita_built filter_practical E)|].
    eapply Permutation_NoDup;
      [apply Permutation_map; symmetry; apply sort_desc_perm|].
    apply select_practical_NoDup.
    eapply Permutation_NoDup;
      [apply Permutation_map; symmetry;
       apply filter_context_specific_verses_perm|].
    rewrite map_map.
    erewrite map_ext; [|intro; apply adjust_verse_ref].
    rewrite build_results_checked in E.
    eapply build_results_NoDup; [exact Hmeta| |exact Hrange|exact E].
    now apply distinct_filter.
  - split.
    + simpl. constructor; [simpl; tauto | constructor].
    + assert (Htwice : ~ NoDup [(2%Z, 47%Z); (2%Z, 47%Z)]).
      { intro H. inversion H as [|? ? Hnotin _]. apply Hnotin. now left. }
      destruct filter_practical; eexists;
        (split; [vm_compute; reflexivity|]);
        (split; [vm_compute; reflexivity|]);
        exact Htwice.
Qed.

End SearchGita.

(** ** The theorems on concrete corpora *)

Section SearchGitaExamples.

Import QueryFaiss Samples.

Lemma search_gita_quota_filled_witness :
  search_gita (ranking hits8) corpus8p desk_query TOP_K true
  = Ok (firstn 5 (filter is_ideal
                         (filter_context_specific_verses
                            (results_of corpus8p hits8) desk_query))).
Proof.
  apply (@search_gita_quota_filled (ranking hits8) corpus8p desk_query TOP_K
                                   (results_of corpus8p hits8)).
  - vm_compute. reflexivity.
  - vm_compute. lia.
Defined.

Lemma search_gita_quota_backfilled_witness :
  exists out,
    search_gita (ranking hits8) corpus8 desk_query TOP_K true = Ok out
    /\ List.length (filter is_ideal out) = 2%nat
    /\ List.length (filter Spec.not_ideal out) = 3%nat
    /\ List.length out = 5%nat.
Proof.
  destruct (@search_gita_quota_backfilled
              (ranking hits8) corpus8 desk_query TOP_K
              (results_of corpus8 hits8)) as [out [H1 [H2 [H3 [_ [H5 _]]]]]].
  - vm_compute. reflexivity.
  - vm_compute. lia.
  - exists out. split; [exact H1|].
    rewrite H2, H3, H5. vm_compute. auto.
Defined.

(** C1 as stated fails on its own scenario: two ideal candidates among
    eight retrieved, of which three others score higher.  The five
    returned entries are in score order, the ideal ones last. *)
Lemma search_gita_ideal_not_first :
  (List.length
     (filter is_ideal
             (filter_context_specific_verses (results_of corpus8 hits8)
                                             desk_query)) = 2)%nat
  /\ exists out,
      search_gita (ranking hits8) corpus8 desk_query TOP_K true = Ok out
      /\ map (fun r => (verse r, is_ideal r, adjusted_key r)) out
         = [(1%Z, false, 0.80); (2%Z, false, 0.75); (3%Z, false, 0.70);
            (4%Z, true, 0.65); (7%Z, true, 0.50)]
      /\ Spec.ideal_before_rest out = false.
Proof.
  split; [vm_compute; reflexivity|].
  eexists. split; [vm_compute; reflexivity|].
  split; vm_compute; reflexivity.
Qed.

(** Labels 0, 5 and 1 on a corpus of two verses: the label 5 is
    dropped, the two verses come back once each. *)
Lemma search_gita_bounded_distinct_witness :
  exists out,
    search_gita (ranking hits_beyond) corpus2 desk_query TOP_K true = Ok out
    /\ NoDup (map Spec.verseRef out).
Proof.
  destruct (@search_gita_bounded_distinct
              (ranking hits_beyond) corpus2 desk_query TOP_K true)
    as [_ [H _]].
  apply H.
  - simpl. repeat (constructor; [simpl; intuition discriminate|]).
    constructor.
  - simpl. repeat (constructor; [simpl; intuition discriminate|]).
    constructor.
  - simpl. repeat constructor; simpl; lia.
Defined.

(** Two candidates of one adjusted score, the ideal one retrieved second:
    it is returned first. *)
Lemma search_gita_tie_ideal_first :
  summary (search_gita (ranking hits_tied) corpus2 desk_query TOP_K true)
  = Ok [(2%Z, 48%Z, 0.5); (2%Z, 47%Z, 0.5)]
  /\ summary (search_gita (ranking hits_tied) corpus2 desk_query TOP_K false)
     = Ok [(2%Z, 47%Z, 0.5); (2%Z, 48%Z, 0.5)].
Proof.
  split; vm_compute; reflexivity.
Qed.

End SearchGitaExamples.

(* ====================================================================== *)
(** * Suitability reranker and confidence gate *)
(* ====================================================================== *)

Module Reranker.

Import LlmReasoning Samples.

Lemma rank_verses_by_suitability_perm (verses : list Verse) (p : string) :
  Permutation (rank_verses_by_suitability verses p)
              (map (rank_verse p) verses).
Proof. apply sort_desc_perm. Qed.

Lemma rank_verses_by_suitability_In (verses : list Verse) (p : string)
      (rv : RankedVerse) :
  In rv (rank_verses_by_suitability verses p)
  <-> exists v, In v verses /\ rv = rank_verse p v.
Proof.
  unfold rank_verses_by_suitability. rewrite sort_desc_In, in_map_iff.
  split; intros [v [H1 H2]]; exists v; auto.
Qed.

(** The scoring of the loop body is the listed multipliers, applied in
    order. *)
Lemma adjust_suitability_factors
      (context : VerseContext) (grief confrontation : bool) (s : Q) :
  adjust_suitability context grief confrontation s
  = Spec.apply_factors
      s (Spec.suitability_factors
           (is_death_focused context) (is_battlefield context)
           (is_universal context) grief confrontation).
Proof.
  unfold adjust_suitability, Spec.apply_factors, Spec.suitability_factors,
    Spec.factor_if.
  destruct (is_death_focused context), (is_battlefield context),
    (is_universal context), grief, confrontation; reflexivity.
Qed.

(** C8. The suitability score starts from the adjusted score and is
    multiplied by 1.2 (death-focused, grief), 0.7 (death-focused, no
    grief), 1.1 (battlefield, confrontation), 0.8 (battlefield, no
    confrontation) and 1.1 (universal), each when it applies; with no
    flag set it stays the adjusted score.  The death-focused candidate of
    adjusted score 0.50 under the grief query gets 0.60 times the
    universal factor. *)
Theorem rank_verse_suitability :
  (forall (p : string) (v : Verse),
      suitability_score (rank_verse p v)
      = Spec.apply_factors
          (adjusted_key v)
          (Spec.suitability_factors
             (is_death_focused (detect_verse_context (english v)))
             (is_battlefield (detect_verse_context (english v)))
             (is_universal (detect_verse_context (english v)))
             (is_grief_query p) (is_confrontation_query p)))
  /\ (forall (grief confrontation : bool) (s : Q),
        adjust_suitability
          {| is_battlefield := false; is_death_focused := false;
             is_devotional := false; is_cosmic := false;
             is_universal := false |} grief confrontation s = s)
  /\ (forall (verses : list Verse) (p : string),
        Permutation (rank_verses_by_suitability verses p)
                    (map (rank_verse p) verses))
  /\ is_grief_query grief_query = true
  /\ is_death_focused (detect_verse_context mortal_text) = true
  /\ exists rv,
      rank_verses_by_suitability [mortal 0.50] grief_query = [rv]
      /\ Spec.suitability_factors
           (is_death_focused (context rv)) (is_battlefield (context rv))
           (is_universal (context rv))
           (is_grief_query grief_query) (is_confrontation_query grief_query)
         = [1.2; 1.1]
      /\ suitability_score rv == 0.60 * 1.1.
Proof.
  split.
  { intros p v. unfold rank_verse. cbn [suitability_score].
    apply adjust_suitability_factors. }
  split; [reflexivity|].
  split; [apply rank_verses_by_suitability_perm|].
  split; [vm_compute; reflexivity|].
  split; [vm_compute; reflexivity|].
  eexists. split; [vm_compute; reflexivity|].
  split; vm_compute; reflexivity.
Qed.






(** C7. When no retrieved candidate has a raw score above 0.30 the
    guidance stage returns its "no relevant verses" answer and nothing
    reaches the text generator; when some candidate is above 0.30 it asks
    the generator, with one to three candidates that all cleared the
    threshold. *)
Theorem reason_over_verses_gate (user_problem : string)
        (retrieved_verses : list Verse) :
  ((forall v, In v retrieved_verses -> ~ 0.30 < score v) ->
   reason_over_verses user_problem retrieved_verses = NoRelevantVerses
   /\ forwarded (reason_over_verses user_problem retrieved_verses) = [])
  /\ ((exists v, In v retrieved_verses /\ 0.30 < score v) ->
      exists top_verses,
        reason_over_verses user_problem retrieved_verses
        = ChatCompletion user_problem top_verses
        /\ top_verses <> []
        /\ (List.length top_verses <= 3)%nat
        /\ Forall (fun rv => 0.30 < score (ranked_verse rv)
                             /\ In (ranked_verse rv) retrieved_verses)
                  top_verses).
Proof.
  unfold reason_over_verses. split.
  - intro H.
    assert (E : filter (fun v => Qltb 0.30 (score v)) retrieved_verses = []).
    { apply filter_none, Forall_forall. intros v Hv.
      destruct (Qltb 0.30 (score v)) eqn:E; [|reflexivity].
      apply Qltb_lt in E. now apply H in Hv. }
    rewrite E. now split.
  - intros [v [Hin Hv]].
    destruct (filter _ retrieved_verses) as [|g good] eqn:E.
    + assert (Hf : In v (filter (fun v => Qltb 0.30 (score v)) retrieved_verses))
        by (apply filter_In; split; [exact Hin | now apply Qltb_lt]).
      rewrite E in Hf. contradiction.
    + eexists. split; [reflexivity|].
      assert (Hlen : List.length (rank_verses_by_suitability (g :: good) user_problem)
                     = S (List.length good)).
      { unfold rank_verses_by_suitability.
        now rewrite sort_desc_length, length_map. }
      repeat split.
      * intro Hnil. apply (f_equal (@List.length _)) in Hnil.
        rewrite length_firstn, Hlen in Hnil. simpl in Hnil. lia.
      * apply firstn_le_length.
      * apply Forall_firstn, Forall_forall. intros rv Hrv.
        apply rank_verses_by_suitability_In in Hrv.
        destruct Hrv as [v' [Hv' ->]]. cbn [rank_verse ranked_verse].
        rewrite <- E in Hv'. apply filter_In in Hv'.
        destruct Hv' as [Hin' Hs]. apply Qltb_lt in Hs. now split.
Qed.

Lemma reason_over_verses_gate_witness :
  reason_over_verses desk_query [steady 0.25; warrior 0.30] = NoRelevantVerses
  /\ exists top_verses,
      reason_over_verses desk_query [steady 0.25; warrior 0.55]
      = ChatCompletion desk_query top_verses.
Proof.
  split.
  - apply (proj1 (reason_over_verses_gate desk_query
                                          [steady 0.25; warrior 0.30])).
    intros v [<-|[<-|[]]]; vm_compute; discriminate.
  - destruct (proj2 (reason_over_verses_gate desk_query
                                             [steady 0.25; warrior 0.55]))
      as [top [H _]].
    + exists (warrior 0.55). split; [right; left; reflexivity|].
      vm_compute. reflexivity.
    + now exists top.
Defined.

End Reranker.

(* ====================================================================== *)
(** * The worked scenarios in binary64 *)
(* ====================================================================== *)

Section Rounded.

(** Scores are exact rationals above.  In Python they are binary64 numbers
    and every product is rounded.  The product of Scenario B, 0.55 x 0.75,
    is rounded to 0x1.a666666666667p-2 (printed 0.41250000000000003), the
    successor of the binary64 number nearest to 0.4125; the products of
    Scenario C, 0.50 x 1.2 and then x 1.1, are the binary64 numbers nearest
    to 0.6 and 0.66. *)
Remark scenario_B_rounded :
  (0x1.199999999999ap-1 * 0.75)%float = 0x1.a666666666667p-2%float
  /\ PrimFloat.next_up 0x1.a666666666666p-2%float = 0x1.a666666666667p-2%float.
Proof. split; vm_compute; reflexivity. Qed.

Remark scenario_C_rounded :
  (0.5 * 0x1.3333333333333p+0)%float = 0x1.3333333333333p-1%float
  /\ (0.5 * 0x1.3333333333333p+0 * 0x1.199999999999ap+0)%float
     = 0x1.51eb851eb851fp-1%float.
Proof. split; vm_compute; reflexivity. Qed.

End Rounded.


(* ====================================================================== *)
(** * Keyword tests *)
(* ====================================================================== *)

Section Keywords.

Import PyStr.
Open Scope string_scope.

Lemma lower_app (a b : string) : lower (a ++ b) = lower a ++ lower b.
Proof.
  induction a as [|c a IH]; simpl; [reflexivity|]. now rewrite IH.
Qed.

Lemma prefix_app (w t post : string) :
  String.prefix w t = true -> String.prefix w (t ++ post) = true.
Proof.
  revert w. induction t as [|d t IH]; intros [|c w] H; simpl in *.
  - destruct post; reflexivity.
  - discriminate.
  - reflexivity.
  - destruct (ascii_dec c d); [now apply IH | discriminate].
Qed.

Lemma contains_app_r (w t post : string) :
  contains w t = true -> contains w (t ++ post) = true.
Proof.
  induction t as [|c t IH]; simpl; intro H.
  - rewrite orb_false_r in H.
    destruct w; [|discriminate].
    destruct post; reflexivity.
  - apply orb_true_iff in H. apply orb_true_iff.
    destruct H as [H|H]; [left | right; now apply IH].
    now apply (prefix_app w (String c t) post).
Qed.

Lemma contains_app_l (w pre t : string) :
  contains w t = true -> contains w (pre ++ t) = true.
Proof.
  intro H. induction pre as [|c pre IH]; simpl; [exact H|].
  now rewrite IH, orb_true_r.
Qed.

Lemma any_in_embedded (words : list string) (pre t post : string) :
  any_in words t = true -> any_in words (pre ++ t ++ post) = true.
Proof.
  unfold any_in. rewrite !existsb_exists.
  intros [w [Hin Hw]]. exists w. split; [exact Hin|].
  now apply contains_app_l, contains_app_r.
Qed.

Lemma any_in_lower_embedded (words : list string) (pre t post : string) :
  Bool.le (any_in words (lower t)) (any_in words (lower (pre ++ t ++ post))).
Proof.
  destruct (any_in words (lower t)) eqn:E; simpl; [|exact I].
  rewrite !lower_app. now apply any_in_embedded.
Qed.

(** X1. On ASCII text the keyword tests of the query classifier are
    monotone: a category or an intent flag that a query sets stays set
    when ASCII text is put before or after the query.  (The tests are
    substring tests on the lower-cased query; the statement is limited to
    ASCII text, where [str.lower] works character by character.) *)
Theorem keyword_flags_monotone (pre q post : string) :
  Views.ascii_text pre = true ->
  Views.ascii_text q = true ->
  Views.ascii_text post = true ->
  Bool.le (QueryFaiss.emotional (QueryFaiss.categorize_problem q))
          (QueryFaiss.emotional
             (QueryFaiss.categorize_problem (pre ++ q ++ post)))
  /\ Bool.le (QueryFaiss.decision (QueryFaiss.categorize_problem q))
             (QueryFaiss.decision
                (QueryFaiss.categorize_problem (pre ++ q ++ post)))
  /\ Bool.le (QueryFaiss.relationship (QueryFaiss.categorize_problem q))
             (QueryFaiss.relationship
                (QueryFaiss.categorize_problem (pre ++ q ++ post)))
  /\ Bool.le (QueryFaiss.career (QueryFaiss.categorize_problem q))
             (QueryFaiss.career
                (QueryFaiss.categorize_problem (pre ++ q ++ post)))
  /\ Bool.le (QueryFaiss.existential (QueryFaiss.categorize_problem q))
             (QueryFaiss.existential
                (QueryFaiss.categorize_problem (pre ++ q ++ post)))
  /\ Bool.le (QueryFaiss.is_social_concern q)
             (QueryFaiss.is_social_concern (pre ++ q ++ post))
  /\ Bool.le (QueryFaiss.is_confrontation q)
             (QueryFaiss.is_confrontation (pre ++ q ++ post))
  /\ Bool.le (LlmReasoning.is_grief_query q)
             (LlmReasoning.is_grief_query (pre ++ q ++ post))
  /\ Bool.le (LlmReasoning.is_confrontation_query q)
             (LlmReasoning.is_confrontation_query (pre ++ q ++ post)).
Proof.
  intros _ _ _.
  unfold QueryFaiss.categorize_problem, QueryFaiss.is_social_concern,
    QueryFaiss.is_confrontation, LlmReasoning.is_grief_query,
    LlmReasoning.is_confrontation_query.
  cbn [QueryFaiss.emotional QueryFaiss.decision QueryFaiss.relationship
       QueryFaiss.career QueryFaiss.existential].
  do 8 (apply conj; [apply any_in_lower_embedded|]).
  apply any_in_lower_embedded.
Qed.

End Keywords.

(* ====================================================================== *)
(** * The adjuster as a whole *)
(* ====================================================================== *)

Section AdjusterWhole.

Import QueryFaiss.

Lemma adjust_verse_own_data (q : string) (v : Verse) :
  Views.own_data (adjust_verse q v) = Views.own_data v.
Proof.
  unfold adjust_verse. destruct (_ && _); [reflexivity|].
  destruct (_ && _); reflexivity.
Qed.

(** The loop body looks at the text and the raw score only: what an
    earlier pass has written is overwritten. *)
Lemma adjust_verse_overwrites (q : string) (v : Verse) (w : option Warning) (a : Q) :
  adjust_verse q (set_adjustment v w a) = adjust_verse q v.
Proof. unfold adjust_verse. simpl. reflexivity. Qed.

Lemma adjust_verse_idem (q : string) (v : Verse) :
  adjust_verse q (adjust_verse q v) = adjust_verse q v.
Proof.
  unfold adjust_verse at 2.
  destruct (_ && _); [apply adjust_verse_overwrites|].
  destruct (_ && _); apply adjust_verse_overwrites.
Qed.

Lemma adjust_verse_adjusted (q : string) (v : Verse) :
  relevance_adjusted (adjust_verse q v) <> None.
Proof.
  destruct (adjust_verse_cases q v) as [[_ R]|[[_ R]|[_ R]]];
    rewrite R; discriminate.
Qed.

(** X2. The adjuster neither drops nor adds nor alters a candidate: its
    output holds the same candidates with the same raw score, identity,
    texts, themes and practical flag, every one now with an adjusted
    score, in descending order of that score. *)
Theorem adjuster_keeps_candidates (results : list Verse) (q : string) :
  Permutation
    (map Views.own_data (filter_context_specific_verses results q))
    (map Views.own_data results)
  /\ List.length (filter_context_specific_verses results q)
     = List.length results
  /\ Forall (fun v => relevance_adjusted v <> None)
            (filter_context_specific_verses results q)
  /\ Spec.by_adjusted_desc (filter_context_specific_verses results q).
Proof.
  repeat split.
  - rewrite (Permutation_map Views.own_data
               (filter_context_specific_verses_perm results q)).
    rewrite map_map.
    erewrite map_ext; [reflexivity|]. intro v. apply adjust_verse_own_data.
  - apply filter_context_specific_verses_length.
  - apply Forall_forall. intros v Hv.
    apply filter_context_specific_verses_In in Hv.
    destruct Hv as [v0 [_ ->]]. apply adjust_verse_adjusted.
  - apply filter_context_specific_verses_sorted.
Qed.

(** X3. Adjusting twice is adjusting once: the penalty is computed from
    the raw score, so a second pass over adjusted candidates (or a pass
    over candidates that carry a warning and an adjusted score from
    elsewhere) does not compound it. *)
Theorem adjuster_idempotent :
  (forall (results : list Verse) (q : string),
      filter_context_specific_verses
        (filter_context_specific_verses results q) q
      = filter_context_specific_verses results q)
  /\ (forall (q : string) (v : Verse) (w : option Warning) (a : Q),
        adjust_verse q (set_adjustment v w a) = adjust_verse q v).
Proof.
  split; [|exact adjust_verse_overwrites].
  intros results q. unfold filter_context_specific_verses.
  set (l := map (adjust_verse q) results).
  assert (E : map (adjust_verse q) (sort_desc adjusted_key l)
              = sort_desc adjusted_key l).
  { rewrite <- (map_id (sort_desc adjusted_key l)) at 2.
    apply map_ext_in. intros v Hv.
    apply sort_desc_In in Hv. unfold l in Hv.
    apply in_map_iff in Hv. destruct Hv as [v0 [<- _]].
    apply adjust_verse_idem. }
  rewrite E. apply sort_desc_id, sort_desc_sorted.
Qed.

End AdjusterWhole.

(* ====================================================================== *)
(** * [search_gita]: errors, size and order of the result *)
(* ====================================================================== *)

Section RetrieverErrors.

Import QueryFaiss.

Variable metadata : list MetaVerse.

Lemma py_getitem_raises (idx : Z) :
  (idx < Z.of_nat (List.length metadata))%Z ->
  (py_getitem metadata idx = Raise IndexError
   <-> (idx < - Z.of_nat (List.length metadata))%Z)
  /\ ((exists m, py_getitem metadata idx = Ok m)
      <-> (- Z.of_nat (List.length metadata) <= idx)%Z).
Proof.
  intro Hlt. unfold py_getitem.
  set (n := Z.of_nat (List.length metadata)) in *.
  set (pos := if (idx <? 0)%Z then (idx + n)%Z else idx).
  assert (Hpos : (pos < n)%Z /\ ((0 <= pos)%Z <-> (- n <= idx)%Z)).
  { unfold pos. destruct (idx <? 0)%Z eqn:E.
    - apply Z.ltb_lt in E. split; [lia | split; lia].
    - apply Z.ltb_ge in E.
      assert (0 <= n)%Z by apply Nat2Z.is_nonneg. split; [lia | split; lia]. }
  destruct Hpos as [Hup Hlow].
  destruct (0 <=? pos)%Z eqn:E0.
  - apply Z.leb_le in E0.
    assert (E1 : (pos <? n)%Z = true) by now apply Z.ltb_lt.
    rewrite E1. simpl.
    destruct (nth_error metadata (Z.to_nat pos)) as [m|] eqn:E2.
    + split; split; intro H; try discriminate; try lia; try (now exists m).
    + apply nth_error_None in E2. unfold n in Hup. lia.
  - apply Z.leb_gt in E0. simpl.
    split; split; intro H; try reflexivity; try lia.
    destruct H as [m H]. discriminate.
Qed.

Lemma build_results_raises (hits : list (Z * Q)) :
  build_results metadata hits = Raise IndexError
  <-> Exists (Views.below_range metadata) hits.
Proof.
  induction hits as [|[idx sc] hits IH].
  - simpl. split; [discriminate | intro H; inversion H].
  - simpl.
    assert (Hn : (0 <= Z.of_nat (List.length metadata))%Z)
      by apply Nat2Z.is_nonneg.
    destruct (idx >=? Z.of_nat (List.length metadata))%Z eqn:E.
    + apply Z.geb_le in E. rewrite IH. split; intro H.
      * now right.
      * inversion H as [? ? Hb|? ? Hb]; subst; [|exact Hb].
        unfold Views.below_range in Hb. simpl in Hb. lia.
    + assert (Hlt : (idx < Z.of_nat (List.length metadata))%Z).
      { destruct (Z.lt_ge_cases idx (Z.of_nat (List.length metadata)))
          as [Hc|Hc]; [exact Hc|].
        apply Z.geb_le in Hc. congruence. }
      destruct (py_getitem_raises Hlt) as [Hr Ho].
      destruct (py_getitem metadata idx) as [m|[]] eqn:Eg; simpl.
      * destruct (build_results metadata hits) as [results|[]] eqn:Eb; simpl.
        -- split; [discriminate|]. intro H.
           inversion H as [? ? Hb|? ? Hb]; subst.
           ++ unfold Views.below_range in Hb. simpl in Hb.
              assert (Hok : (- Z.of_nat (List.length metadata) <= idx)%Z)
                by (apply Ho; now exists m).
              lia.
           ++ apply IH in Hb. discriminate.
        -- split; [intros _|reflexivity]. right. now apply IH.
      * split; [intros _|reflexivity]. left.
        unfold Views.below_range. simpl. now apply Hr.
Qed.

(** The loop keeps one dictionary for each hit that passes the safety
    check. *)
Lemma build_results_length (hits : list (Z * Q)) (results : list Verse) :
  build_results metadata hits = Ok results ->
  List.length results
  = List.length (filter (Views.passes_check metadata) hits).
Proof.
  revert results. induction hits as [|[idx sc] hits IH]; intros results H.
  - injection H as <-. reflexivity.
  - simpl in H. unfold Views.passes_check at 1. simpl.
    fold (Views.passes_check metadata).
    destruct (idx >=? Z.of_nat (List.length metadata))%Z eqn:E.
    + apply Z.geb_le in E.
      destruct (idx <? Z.of_nat (List.length metadata))%Z eqn:E'.
      * apply Z.ltb_lt in E'. lia.
      * now apply IH.
    + destruct (idx <? Z.of_nat (List.length metadata))%Z eqn:E'.
      * destruct (py_getitem metadata idx) as [m|e]; simpl in H;
          [|discriminate].
        destruct (build_results metadata hits) as [rs|e]; simpl in H;
          [|discriminate].
        injection H as <-. simpl. f_equal. now apply IH.
      * apply Z.ltb_ge in E'. apply Z.geb_le in E'. congruence.
Qed.

(** Every dictionary is built from an entry of the corpus. *)
Lemma build_results_from_corpus (hits : list (Z * Q)) (results : list Verse) :
  build_results metadata hits = Ok results ->
  Forall (fun r =>
            exists m, In m metadata
                      /\ chapter r = m_chapter m /\ verse r = m_verse m
                      /\ english r = m_english m
                      /\ themes r = get (m_themes m) []
                      /\ is_practical r = get (m_is_practical m) false)
         results.
Proof.
  revert results. induction hits as [|[idx sc] hits IH]; intros results H.
  - injection H as <-. constructor.
  - simpl in H.
    destruct (idx >=? Z.of_nat (List.length metadata))%Z; [now apply IH|].
    destruct (py_getitem metadata idx) as [m|e] eqn:Eg; simpl in H;
      [|discriminate].
    destruct (build_results metadata hits) as [rs|e]; simpl in H;
      [|discriminate].
    injection H as <-. constructor; [|now apply IH].
    exists m. split; [|repeat split].
    unfold py_getitem in Eg.
    destruct (_ && _)%Z; [|discriminate].
    destruct (nth_error metadata _) as [m'|] eqn:En; [|discriminate].
    injection Eg as <-. eapply nth_error_In, En.
Qed.

End RetrieverErrors.

Section SearchGitaMore.

Import QueryFaiss.

Variable retrieve : string -> Z -> list (Z * Q).
Variable metadata : list MetaVerse.
Variable query : string.
Variable top_k : Z.

Lemma search_gita_raises_when (filter_practical : bool) :
  search_gita retrieve metadata query top_k filter_practical = Raise IndexError
  <-> Exists (Views.below_range metadata)
             (retrieve (enhance_query_contextual query) top_k).
Proof.
  rewrite <- build_results_raises. unfold search_gita.
  destruct (build_results metadata _) as [results|[]]; simpl;
    split; intro H; try discriminate; reflexivity.
Qed.

Lemma select_practical_size (b : bool) (cands : list Verse) :
  List.length (select_practical b cands) = Nat.min 5 (List.length cands).
Proof.
  destruct b; [|apply length_firstn].
  rewrite select_practical_true.
  pose proof (partition_length is_ideal cands) as Hp.
  destruct (5 <=? _)%nat eqn:E.
  - apply Nat.leb_le in E. rewrite length_firstn. lia.
  - apply Nat.leb_gt in E. rewrite length_app, length_firstn.
    unfold Spec.not_ideal. lia.
Qed.

Lemma search_gita_length_when (filter_practical : bool) (out : list Verse) :
  search_gita retrieve metadata query top_k filter_practical = Ok out ->
  List.length out
  = Nat.min 5 (List.length
                 (filter (Views.passes_check metadata)
                         (retrieve (enhance_query_contextual query) top_k))).
Proof.
  intro H. apply search_gita_inv in H. destruct H as [results [Hb ->]].
  rewrite sort_desc_length, select_practical_size,
    filter_context_specific_verses_length.
  now rewrite (build_results_length _ _ Hb).
Qed.

Lemma search_gita_empty_when (filter_practical : bool) (out : list Verse) :
  search_gita retrieve metadata query top_k filter_practical = Ok out ->
  out = [] <->
  Forall (fun hit => Views.passes_check metadata hit = false)
         (retrieve (enhance_query_contextual query) top_k).
Proof.
  intro H. apply search_gita_length_when in H. split.
  - intro Hnil. rewrite Hnil in H. simpl in H.
    apply Forall_forall. intros hit Hin.
    destruct (Views.passes_check metadata hit) eqn:E; [|reflexivity].
    assert (Hf : In hit (filter (Views.passes_check metadata)
                           (retrieve (enhance_query_contextual query) top_k)))
      by (apply filter_In; now split).
    destruct (filter _ _); [contradiction | simpl in H; lia].
  - intro Hall. rewrite (filter_none _ Hall) in H. simpl in H.
    destruct out; [reflexivity | discriminate].
Qed.

(** X5. When [search_gita] returns, the number of verses returned is the
    number of hits that pass the safety check, capped at five, with or
    without the practical filter; the list is empty exactly when no hit
    passes the check. *)
Theorem search_gita_size (filter_practical : bool) (out : list Verse) :
  search_gita retrieve metadata query top_k filter_practical = Ok out ->
  List.length out
  = Nat.min 5 (List.length
                 (filter (Views.passes_check metadata)
                         (retrieve (enhance_query_contextual query) top_k)))
  /\ (out = [] <->
      Forall (fun hit => Views.passes_check metadata hit = false)
             (retrieve (enhance_query_contextual query) top_k)).
Proof.
  intro H. split.
  - exact (search_gita_length_when filter_practical H).
  - exact (search_gita_empty_when filter_practical H).
Qed.

Lemma search_gita_false_built (results : list Verse) :
  build_results metadata (retrieve (enhance_query_contextual query) top_k)
  = Ok results ->
  search_gita retrieve metadata query top_k false
  = Ok (firstn 5 (filter_context_specific_verses results query)).
Proof.
  intro H. rewrite (search_gita_built retrieve metadata query top_k false H).
  unfold select_practical.
  now rewrite sort_desc_id
    by apply desc_firstn, filter_context_specific_verses_sorted.
Qed.

(** X6. Without the practical filter the result is the first five of the
    adjusted candidates: the five highest adjusted scores, ties in the
    order of the adjuster. *)
Theorem search_gita_unfiltered (results : list Verse) :
  build_results metadata (retrieve (enhance_query_contextual query) top_k)
  = Ok results ->
  search_gita retrieve metadata query top_k false
  = Ok (firstn 5 (filter_context_specific_verses results query)).
Proof. exact (@search_gita_false_built results). Qed.

Lemma In_firstn (A : Type) (n : nat) (l : list A) (a : A) :
  In a (firstn n l) -> In a l.
Proof.
  intro H. rewrite <- (firstn_skipn n l). apply in_or_app. now left.
Qed.

Lemma select_practical_incl (b : bool) (cands : list Verse) (r : Verse) :
  In r (select_practical b cands) -> In r cands.
Proof.
  unfold select_practical. intro H.
  destruct b; [destruct (5 <=? _)%nat|].
  - apply In_firstn in H. now apply filter_In in H.
  - apply In_firstn in H. apply in_app_or in H.
    destruct H as [H|H]; now apply filter_In in H.
  - now apply In_firstn in H.
Qed.

(** X7. Whatever the filter flag, the returned list is in descending order
    of adjusted score, so its first verse has the highest adjusted score of
    the list; and every returned verse is one of the adjusted candidates,
    with its adjusted score present. *)
Theorem search_gita_sorted (filter_practical : bool) (out : list Verse) :
  search_gita retrieve metadata query top_k filter_practical = Ok out ->
  Spec.by_adjusted_desc out
  /\ (forall first others,
        out = first :: others ->
        Forall (fun r => adjusted_key r <= adjusted_key first) others)
  /\ exists results,
      build_results metadata (retrieve (enhance_query_contextual query) top_k)
      = Ok results
      /\ Forall (fun r =>
                   relevance_adjusted r <> None
                   /\ exists v, In v results /\ r = adjust_verse query v)
                out.
Proof.
  intro H. apply search_gita_inv in H. destruct H as [results [Hb ->]].
  assert (Hs : desc adjusted_key
                 (sort_desc adjusted_key
                    (select_practical filter_practical
                       (filter_context_specific_verses results query))))
    by apply sort_desc_sorted.
  split; [exact Hs|]. split.
  - intros first others E. rewrite E in Hs.
    inversion Hs as [|? ? _ Hf]; subst. exact Hf.
  - exists results. split; [exact Hb|].
    apply Forall_forall. intros r Hr.
    apply sort_desc_In, select_practical_incl in Hr.
    apply filter_context_specific_verses_In in Hr.
    destruct Hr as [v [Hv ->]].
    split; [apply adjust_verse_adjusted | now exists v].
Qed.

Lemma filter_firstn_length (A : Type) (p : A -> bool) (n : nat) (l : list A) :
  (List.length (filter p (firstn n l)) <= List.length (filter p l))%nat.
Proof.
  revert n. induction l as [|a l IH]; intros [|n]; simpl; try lia.
  destruct (p a); simpl; specialize (IH n); lia.
Qed.

(** X8. With the practical filter on, the result holds as many ideal
    verses as five places allow, that is all of them or five; the
    unfiltered result never holds more. *)
Theorem search_gita_ideal_count (results : list Verse) :
  build_results metadata (retrieve (enhance_query_contextual query) top_k)
  = Ok results ->
  exists filtered unfiltered,
    search_gita retrieve metadata query top_k true = Ok filtered
    /\ search_gita retrieve metadata query top_k false = Ok unfiltered
    /\ List.length (filter is_ideal filtered)
       = Nat.min 5 (List.length
                      (filter is_ideal
                              (filter_context_specific_verses results query)))
    /\ (List.length (filter is_ideal unfiltered)
        <= List.length (filter is_ideal filtered))%nat.
Proof.
  intro Hb.
  set (cands := filter_context_specific_verses results query).
  assert (Ht : List.length
                 (filter is_ideal
                    (sort_desc adjusted_key (select_practical true cands)))
               = Nat.min 5 (List.length (filter is_ideal cands))).
  { rewrite filter_sort_desc, sort_desc_length, select_practical_true.
    destruct (5 <=? _)%nat eqn:E.
    - apply Nat.leb_le in E.
      rewrite filter_all by apply Forall_firstn, Forall_filter_true.
      rewrite length_firstn. lia.
    - apply Nat.leb_gt in E. rewrite filter_app, filter_filter_same.
      rewrite (@filter_none _ is_ideal (firstn _ _)).
      + rewrite app_nil_r. lia.
      + apply Forall_firstn, Forall_forall. intros r Hr.
        apply filter_In in Hr. destruct Hr as [_ Hr].
        unfold Spec.not_ideal in Hr. now apply negb_true_iff in Hr. }
  eexists. eexists.
  split; [apply (search_gita_built retrieve metadata query top_k true Hb)|].
  split; [apply (search_gita_false_built Hb)|].
  fold cands. split; [exact Ht|].
  rewrite Ht.
  apply Nat.min_glb.
  - etransitivity; [apply filter_length_le|]. rewrite length_firstn. lia.
  - apply filter_firstn_length.
Qed.

(** X9. When at most five candidates are retrieved, the practical filter
    changes nothing but the order among equal scores: with and without it
    the same verses are returned, in descending order of adjusted
    score. *)
Theorem search_gita_filter_void (results : list Verse) :
  build_results metadata (retrieve (enhance_query_contextual query) top_k)
  = Ok results ->
  (List.length results <= 5)%nat ->
  exists filtered unfiltered,
    search_gita retrieve metadata query top_k true = Ok filtered
    /\ search_gita retrieve metadata query top_k false = Ok unfiltered
    /\ Permutation filtered unfiltered
    /\ Spec.by_adjusted_desc filtered
    /\ Spec.by_adjusted_desc unfiltered.
Proof.
  intros Hb Hlen.
  set (cands := filter_context_specific_verses results query).
  assert (Hc : (List.length cands <= 5)%nat)
    by (unfold cands; now rewrite filter_context_specific_verses_length).
  eexists. eexists.
  split; [apply (search_gita_built retrieve metadata query top_k true Hb)|].
  split; [apply (search_gita_built retrieve metadata query top_k false Hb)|].
  fold cands.
  split; [|split; apply sort_desc_sorted].
  rewrite !sort_desc_perm. unfold select_practical at 2.
  rewrite (@firstn_all2 _ 5 cands Hc), select_practical_true.
  pose proof (partition_perm is_ideal cands) as Hp.
  pose proof (partition_length is_ideal cands) as Hl.
  destruct (5 <=? _)%nat eqn:E.
  - apply Nat.leb_le in E.
    rewrite firstn_all2 by lia.
    destruct (filter (fun a => negb (is_ideal a)) cands) eqn:Er;
      [now rewrite app_nil_r in Hp | simpl in Hl; lia].
  - unfold Spec.not_ideal.
    rewrite firstn_all2; [exact Hp|].
    apply Nat.leb_gt in E. lia.
Qed.

End SearchGitaMore.

(* ====================================================================== *)
(** * The reranker as a whole *)
(* ====================================================================== *)

Section RerankerWhole.

Import LlmReasoning.

Lemma is_universal_detected (verse_text : string) :
  is_universal (detect_verse_context verse_text) = true.
Proof.
  unfold detect_verse_context. cbn [is_universal].
  now destruct (PyStr.any_in universal_keywords _).
Qed.

(** X10. Among verses with the same death-focused and battlefield flags
    the reranker never reverses the order of the adjusted scores: a verse
    whose adjusted score is at most another's is at most as suitable, and
    a verse that is strictly less suitable has a strictly lower adjusted
    score.  Re-ranking can only move verses with different flags past
    each other. *)
Theorem rerank_order_within_flags (p : string) (v1 v2 : Verse) :
  Views.risk_flags v1 = Views.risk_flags v2 ->
  (adjusted_key v1 <= adjusted_key v2 ->
   suitability_score (rank_verse p v1) <= suitability_score (rank_verse p v2))
  /\ (suitability_score (rank_verse p v1) < suitability_score (rank_verse p v2)
      -> adjusted_key v1 < adjusted_key v2).
Proof.
  unfold Views.risk_flags. intro H.
  assert (Hd : is_death_focused (detect_verse_context (english v1))
               = is_death_focused (detect_verse_context (english v2)))
    by congruence.
  assert (Hb : is_battlefield (detect_verse_context (english v1))
               = is_battlefield (detect_verse_context (english v2)))
    by congruence.
  clear H. unfold rank_verse. cbn [suitability_score]. unfold adjust_suitability.
  rewrite !is_universal_detected, Hd, Hb. clear Hd Hb.
  destruct (is_death_focused (detect_verse_context (english v2))),
    (is_battlefield (detect_verse_context (english v2))),
    (is_grief_query p), (is_confrontation_query p); cbn [andb negb];
    split; intro H; lra.
Qed.

(** X11. Re-ranking moves a score by a bounded factor and keeps its sign:
    the suitability score of an adjusted score that is not negative lies
    between 0.6 and 1.5 times that score, and the suitability score of an
    adjusted score that is not positive between 1.5 and 0.6 times it.
    (The products of the multipliers range from 0.7 x 0.8 x 1.1 to
    1.2 x 1.1 x 1.1.) *)
Theorem rerank_factor_range (p : string) (v : Verse) :
  (0 <= adjusted_key v ->
   adjusted_key v * 0.6 <= suitability_score (rank_verse p v)
   /\ suitability_score (rank_verse p v) <= adjusted_key v * 1.5)
  /\ (adjusted_key v <= 0 ->
      adjusted_key v * 1.5 <= suitability_score (rank_verse p v)
      /\ suitability_score (rank_verse p v) <= adjusted_key v * 0.6).
Proof.
  unfold rank_verse. cbn [suitability_score]. unfold adjust_suitability.
  rewrite is_universal_detected.
  destruct (is_death_focused _), (is_battlefield _),
    (is_grief_query p), (is_confrontation_query p); cbn [andb negb];
    split; intro H; split; lra.
Qed.

Lemma desc_app_dominates (A : Type) (key : A -> Q) (l1 l2 : list A) :
  desc key (l1 ++ l2) ->
  forall x y, In x l1 -> In y l2 -> key y <= key x.
Proof.
  induction l1 as [|a l1 IH]; simpl; intros H x y Hx Hy; [contradiction|].
  inversion H as [|? ? Hs Hf]; subst.
  destruct Hx as [<-|Hx].
  - rewrite Forall_forall in Hf. apply Hf, in_or_app. now right.
  - now apply (IH Hs x y).
Qed.

(** X12. When the guidance stage asks the text generator, the verses it
    sends are the most suitable of those above the threshold: there are
    three of them, or all if fewer, in descending order of suitability,
    and every verse above the threshold that is not sent is at most as
    suitable as each verse sent. *)
Theorem forwarded_are_most_suitable
        (user_problem : string) (retrieved_verses : list Verse)
        (top_verses : list RankedVerse) :
  reason_over_verses user_problem retrieved_verses
  = ChatCompletion user_problem top_verses ->
  List.length top_verses
  = Nat.min 3 (List.length
                 (filter (fun v => Qltb 0.30 (score v)) retrieved_verses))
  /\ desc suitability_score top_verses
  /\ forall v,
      In v retrieved_verses -> 0.30 < score v ->
      In (rank_verse user_problem v) top_verses
      \/ Forall (fun sent =>
                   suitability_score (rank_verse user_problem v)
                   <= suitability_score sent)
                top_verses.
Proof.
  unfold reason_over_verses.
  destruct (filter _ retrieved_verses) as [|g good] eqn:E; [discriminate|].
  intro H.
  assert (Ht : top_verses
               = firstn 3 (rank_verses_by_suitability (g :: good) user_problem))
    by congruence.
  clear H. subst top_verses.
  set (ranked := rank_verses_by_suitability (g :: good) user_problem).
  assert (Hs : desc suitability_score ranked) by apply sort_desc_sorted.
  repeat split.
  - rewrite length_firstn. unfold ranked, rank_verses_by_suitability.
    now rewrite sort_desc_length, length_map.
  - now apply desc_firstn.
  - intros v Hin Hv.
    assert (Hr : In (rank_verse user_problem v) ranked).
    { unfold ranked, rank_verses_by_suitability.
      apply sort_desc_In, in_map. rewrite <- E.
      apply filter_In. split; [exact Hin | now apply Qltb_lt]. }
    rewrite <- (firstn_skipn 3 ranked) in Hr, Hs.
    apply in_app_or in Hr. destruct Hr as [Hr|Hr]; [now left|right].
    apply Forall_forall. intros sent Hsent.
    apply (@desc_app_dominates _ _ _ _ Hs sent _ Hsent Hr).
Qed.

End RerankerWhole.

(* ====================================================================== *)
(** * [load_resources] *)
(* ====================================================================== *)

Section LoadResources.

Import Resources.

Variables Model Index Metadata : Type.

(** X13. Once [load_resources] has returned, every later call returns the
    same model, index and metadata and leaves the globals as they are,
    whatever has become of the files in the meantime. *)
Theorem load_resources_once
        (fs fs' : Files Model Index Metadata)
        (g g' : Globals Model Index Metadata)
        (loaded : Model * Index * Metadata) :
  load_resources fs g = (g', inr loaded) ->
  load_resources fs' g' = (g', inr loaded).
Proof.
  unfold load_resources. intro H.
  destruct (match _index g with None => index_file fs | Some i => Some i end)
    as [index|]; [|discriminate].
  destruct (match _metadata g with
            | None => metadata_file fs
            | Some m => Some m
            end) as [metadata|]; [|discriminate].
  injection H as <- <-. reflexivity.
Qed.

(** X14. [load_resources] raises only [FileNotFoundError]: for the index
    file when the index is not loaded yet and its file is missing, else for
    the metadata file when the metadata is not loaded yet and its file is
    missing.  The failed call keeps what was loaded before it and what it
    loaded itself: the model is loaded after every call, and the index
    stays loaded when the metadata file is the missing one. *)
Theorem load_resources_failure
        (fs : Files Model Index Metadata) (g : Globals Model Index Metadata) :
  (snd (load_resources fs g) = inl (FileNotFoundError INDEX_PATH)
   <-> _index g = None /\ index_file fs = None)
  /\ (snd (load_resources fs g) = inl (FileNotFoundError META_PATH)
      <-> ~ (_index g = None /\ index_file fs = None)
          /\ _metadata g = None /\ metadata_file fs = None)
  /\ _model (fst (load_resources fs g)) <> None
  /\ (forall model, _model g = Some model ->
                    _model (fst (load_resources fs g)) = Some model)
  /\ (forall index, _index g = Some index ->
                    _index (fst (load_resources fs g)) = Some index)
  /\ (forall metadata, _metadata g = Some metadata ->
                       _metadata (fst (load_resources fs g)) = Some metadata)
  /\ (snd (load_resources fs g) = inl (FileNotFoundError META_PATH) ->
      _index (fst (load_resources fs g)) <> None).
Proof.
  unfold load_resources.
  destruct g as [[model|] [index|] [metadata|]];
    destruct fs as [st [ifile|] [mfile|]]; cbn;
    repeat split; intros; try discriminate; try congruence;
    try tauto;
    try (match goal with
         | H : _ /\ _ |- _ => destruct H; congruence
         end);
    try (match goal with
         | H : ~ _ /\ _ |- _ => destruct H as [Hn [? ?]]
         end; try congruence; try (exfalso; apply Hn; now split));
    try (intros [? ?]; congruence).
Qed.

End LoadResources.

Section SearchGitaLoading.

Import Resources.

Variables Model Index : Type.
Variable encode_search : Model -> Index -> string -> Z -> list (Z * Q).

Lemma load_resources_raises
      (Metadata : Type)
      (fs : Files Model Index Metadata) (g : Globals Model Index Metadata) :
  (snd (load_resources fs g) = inl (FileNotFoundError INDEX_PATH)
   <-> _index g = None /\ index_file fs = None)
  /\ (snd (load_resources fs g) = inl (FileNotFoundError META_PATH)
      <-> ~ (_index g = None /\ index_file fs = None)
          /\ _metadata g = None /\ metadata_file fs = None).
Proof.
  unfold load_resources.
  destruct g as [[model|] [index|] [metadata|]];
    destruct fs as [st [ifile|] [mfile|]]; cbn;
    repeat split; intros; try discriminate; try congruence;
    try tauto;
    try (match goal with
         | H : _ /\ _ |- _ => destruct H; congruence
         end);
    try (match goal with
         | H : ~ _ /\ _ |- _ => destruct H as [Hn [? ?]]
         end; try congruence; try (exfalso; apply Hn; now split));
    try (intros [? ?]; congruence).
Qed.

Lemma search_gita_not_loaded
      (fs : Files Model Index (list QueryFaiss.MetaVerse))
      (g g' : Globals Model Index (list QueryFaiss.MetaVerse))
      (e : LoadError) (query : string) (top_k : Z) (filter_practical : bool) :
  load_resources fs g = (g', inl e) ->
  search_gita encode_search fs g query top_k filter_practical
  = (g', inl (LoadFailed e)).
Proof. unfold search_gita. now intros ->. Qed.

Lemma search_gita_loaded
      (fs : Files Model Index (list QueryFaiss.MetaVerse))
      (g g' : Globals Model Index (list QueryFaiss.MetaVerse))
      (model : Model) (index : Index) (metadata : list QueryFaiss.MetaVerse)
      (query : string) (top_k : Z) (filter_practical : bool) :
  load_resources fs g = (g', inr (model, index, metadata)) ->
  search_gita encode_search fs g query top_k filter_practical
  = (g',
     match QueryFaiss.search_gita (encode_search model index) metadata
                                  query top_k filter_practical with
     | Ok results => inr results
     | Raise e => inl (LookupFailed e)
     end).
Proof. unfold search_gita. now intros ->. Qed.

(** X4. What a call of [search_gita] raises.  It raises
    [FileNotFoundError] exactly when [load_resources] does: for the index
    file when the index is not loaded and its file is missing, else for
    the metadata file when the metadata is not loaded and its file is
    missing.  When the resources load, it raises exactly when the index
    reports a label below [-len(metadata)], and then [IndexError]; labels
    from [-len(metadata)] on never raise: the negative ones are read from
    the end of the corpus, those at or beyond its end are skipped.  The
    globals after the call are those that [load_resources] left. *)
Theorem search_gita_raises_iff
        (fs : Files Model Index (list QueryFaiss.MetaVerse))
        (g : Globals Model Index (list QueryFaiss.MetaVerse))
        (query : string) (top_k : Z) (filter_practical : bool) :
  fst (search_gita encode_search fs g query top_k filter_practical)
  = fst (load_resources fs g)
  /\ (forall path,
        snd (search_gita encode_search fs g query top_k filter_practical)
        = inl (LoadFailed (FileNotFoundError path))
        <-> snd (load_resources fs g) = inl (FileNotFoundError path))
  /\ (snd (search_gita encode_search fs g query top_k filter_practical)
      = inl (LoadFailed (FileNotFoundError INDEX_PATH))
      <-> _index g = None /\ index_file fs = None)
  /\ (snd (search_gita encode_search fs g query top_k filter_practical)
      = inl (LoadFailed (FileNotFoundError META_PATH))
      <-> ~ (_index g = None /\ index_file fs = None)
          /\ _metadata g = None /\ metadata_file fs = None)
  /\ (forall e,
        snd (search_gita encode_search fs g query top_k filter_practical)
        = inl (LookupFailed e) ->
        e = IndexError
        /\ exists loaded, snd (load_resources fs g) = inr loaded)
  /\ (forall model index metadata,
        snd (load_resources fs g) = inr (model, index, metadata) ->
        (snd (search_gita encode_search fs g query top_k filter_practical)
         = inl (LookupFailed IndexError)
         <-> Exists (Views.below_range metadata)
                    (encode_search model index
                       (QueryFaiss.enhance_query_contextual query) top_k))
        /\ ((exists out,
               snd (search_gita encode_search fs g query top_k
                                filter_practical) = inr out)
            <-> Forall (fun hit => ~ Views.below_range metadata hit)
                       (encode_search model index
                          (QueryFaiss.enhance_query_contextual query)
                          top_k))).
Proof.
  pose proof (load_resources_raises fs g) as [Hindex Hmeta].
  destruct (load_resources fs g) as [g' [e|[[model index] metadata]]] eqn:E.
  - rewrite (@search_gita_not_loaded fs g g' e query top_k filter_practical E). cbn [fst snd] in *.
    split; [reflexivity|].
    split; [intro path; split; congruence|].
    split; [rewrite <- Hindex; split; congruence|].
    split; [rewrite <- Hmeta; split; congruence|].
    split; [intros e' H; discriminate|].
    intros model index metadata H. discriminate.
  - rewrite (@search_gita_loaded fs g g' model index metadata query top_k
                               filter_practical E). cbn [fst snd] in *.
    pose proof (search_gita_raises_when
                  (encode_search model index) metadata query top_k
                  filter_practical) as Hr.
    split; [reflexivity|].
    split.
    { intro path. split; intro H; [|discriminate].
      destruct (QueryFaiss.search_gita _ _ _ _ _); discriminate. }
    split.
    { rewrite <- Hindex. split; intro H; [|discriminate].
      destruct (QueryFaiss.search_gita _ _ _ _ _); discriminate. }
    split.
    { rewrite <- Hmeta. split; intro H; [|discriminate].
      destruct (QueryFaiss.search_gita _ _ _ _ _); discriminate. }
    split.
    { intros [] _. split; [reflexivity|]. now eexists. }
    intros model' index' metadata' H.
    assert (model' = model /\ index' = index /\ metadata' = metadata)
      as [-> [-> ->]] by (injection H; auto).
    clear H. rewrite Forall_Exists_neg, <- Hr.
    destruct (QueryFaiss.search_gita (encode_search model index) metadata
                                     query top_k filter_practical)
      as [out|[]]; split; split; intro H;
      try discriminate; try reflexivity.
    + now exists out.
    + destruct H as [out H]. discriminate.
    + now contradiction H.
Qed.

End SearchGitaLoading.

(* ====================================================================== *)
(** * api.py: the key check *)
(* ====================================================================== *)

Section ApiKey.

Import Api.
Open Scope string_scope.

(** X15. [verify_api_key] lets a request through exactly when its key is
    not empty and equals the configured key, and then returns that key; a
    request without key or with an empty key is refused with 401, any
    other with 403.  When no key is configured (the empty string), no
    request gets through. *)
Theorem verify_api_key_accepts (API_KEY : string) (api_key : option string) :
  (forall key,
      verify_api_key API_KEY api_key = inr key
      <-> api_key = Some key /\ key = API_KEY /\ key <> "")
  /\ (verify_api_key API_KEY api_key
      = inl (mkHTTPException 401 "Missing API Key")
      <-> api_key = None \/ api_key = Some "")
  /\ (verify_api_key API_KEY api_key
      = inl (mkHTTPException 403 "Invalid API Key")
      <-> exists key, api_key = Some key /\ key <> "" /\ key <> API_KEY)
  /\ (API_KEY = "" -> exists e, verify_api_key API_KEY api_key = inl e).
Proof.
  unfold verify_api_key.
  destruct api_key as [[|c key]|]; cbn [truthy negb];
    [| destruct (String.eqb (String c key) API_KEY) eqn:E; cbn [negb];
       [apply String.eqb_eq in E | apply String.eqb_neq in E] |];
    repeat split; intros;
    repeat match goal with
           | H : _ /\ _ |- _ => destruct H
           | H : exists _, _ |- _ => destruct H
           | H : _ \/ _ |- _ => destruct H
           | H : Some _ = Some _ |- _ => injection H as H; subst
           | H : inr _ = inr _ |- _ => injection H as H; subst
           end;
    try discriminate; try congruence; try tauto; eauto.
  exists (String c key). repeat split; [discriminate | exact E].
Qed.

End ApiKey.

(* ====================================================================== *)
(** * api.py: the search handler and its verse records *)
(* ====================================================================== *)

Section ApiSearch.

Import Api.
Open Scope string_scope.

Variable retrieve : string -> Z -> list (Z * Q).
Variable metadata : list QueryFaiss.MetaVerse.
Variable request : QueryRequest.

(** X16. The search handler has three outcomes.  The [IndexError] of
    [search_gita] goes through unhandled exactly when a label is below
    [-len(metadata)].  Otherwise the answer is 404 "No verses found"
    exactly when no hit passes the safety check.  Otherwise the body
    reports between one and five verses, as many as hits pass the check up
    to five, the question and its enhanced form; with guidance requested
    the selected verse is the first verse of the body. *)
Theorem api_search_outcomes :
  (search retrieve metadata request = Unhandled IndexError
   <-> Exists (Views.below_range metadata)
              (retrieve (QueryFaiss.enhance_query_contextual (question request))
                        (top_k request)))
  /\ (search retrieve metadata request
      = Refused (mkHTTPException 404 "No verses found")
      <-> Forall (fun hit => ~ Views.below_range metadata hit)
                 (retrieve
                    (QueryFaiss.enhance_query_contextual (question request))
                    (top_k request))
          /\ Forall (fun hit => Views.passes_check metadata hit = false)
                    (retrieve
                       (QueryFaiss.enhance_query_contextual (question request))
                       (top_k request)))
  /\ (forall body,
        search retrieve metadata request = Returned body ->
        total_verses body = List.length (verses body)
        /\ (1 <= total_verses body <= 5)%nat
        /\ total_verses body
           = Nat.min 5 (List.length
                          (filter (Views.passes_check metadata)
                                  (retrieve
                                     (QueryFaiss.enhance_query_contextual
                                        (question request))
                                     (top_k request))))
        /\ query body = question request
        /\ enhanced_query body
           = QueryFaiss.enhance_query_contextual (question request)
        /\ (guidance body = None <-> include_guidance request = false)
        /\ forall g,
            guidance body = Some g ->
            exists first others,
              verses body = first :: others
              /\ selected_verse g
                 = (r_chapter first, r_verse first, r_english first)).
Proof.
  pose proof (search_gita_raises_when retrieve metadata (question request)
                (top_k request) (filter_practical request)) as Hr.
  pose proof (@search_gita_length_when retrieve metadata (question request)
                (top_k request) (filter_practical request)) as Hl.
  pose proof (@search_gita_empty_when retrieve metadata (question request)
                (top_k request) (filter_practical request)) as He.
  rewrite Forall_Exists_neg, <- Hr.
  unfold search.
  destruct (QueryFaiss.search_gita retrieve metadata (question request)
              (top_k request) (filter_practical request))
    as [[|first others]|[]] eqn:E.
  - specialize (He [] eq_refl). split; [|split].
    + split; discriminate.
    + split; [intros _|reflexivity].
      split; [discriminate | now apply He].
    + intros body H. discriminate.
  - specialize (He _ eq_refl). specialize (Hl _ eq_refl).
    split; [|split].
    + split; discriminate.
    + split; [discriminate|]. intros [_ H]. apply He in H. discriminate.
    + intros body H. injection H as <-.
      cbn [total_verses verses query enhanced_query guidance].
      assert (Hle : (List.length (first :: others) <= 5)%nat)
        by (rewrite Hl; apply Nat.le_min_l).
      simpl List.length in *. rewrite ?length_map.
      split; [reflexivity|]. split; [lia|].
      split; [exact Hl|]. split; [reflexivity|]. split; [reflexivity|].
      split.
      * destruct (include_guidance request); split; intro H;
          try discriminate; reflexivity.
      * intros g Hg. exists (format_verse_response first),
                       (map format_verse_response others).
        split; [reflexivity|].
        destruct (include_guidance request); [|discriminate].
        injection Hg as <-. reflexivity.
  - split; [|split].
    + split; reflexivity.
    + split; [discriminate|]. intros [H _]. now contradiction H.
    + intros body H. discriminate.
Qed.

End ApiSearch.

Section VerseRecords.

Import Api.
Open Scope string_scope.

Lemma format_int_inj (a b : Z) : format_int a = format_int b -> a = b.
Proof.
  unfold format_int. intro H.
  assert (Hi : Some (Z.to_int a) = Some (Z.to_int b))
    by (rewrite <- !NilEmpty.isi; now rewrite H).
  injection Hi as Hi. rewrite <- (DecimalZ.of_to a), <- (DecimalZ.of_to b).
  now rewrite Hi.
Qed.

Lemma string_of_uint_free (c : ascii) (d : Decimal.uint) :
  (nat_of_ascii c < 48)%nat ->
  Views.free_of c (NilEmpty.string_of_uint d).
Proof.
  intro Hc. induction d; simpl; [exact I | ..];
    (split; [| exact IHd]); intro H; subst c; vm_compute in Hc; lia.
Qed.

Lemma format_int_free (c : ascii) (n : Z) :
  (nat_of_ascii c = 46 \/ nat_of_ascii c = 47)%nat ->
  Views.free_of c (format_int n).
Proof.
  intro Hc. unfold format_int.
  destruct (Z.to_int n) as [d|d]; simpl.
  - apply string_of_uint_free. lia.
  - split; [intro H; subst c; vm_compute in Hc; lia|].
    apply string_of_uint_free. lia.
Qed.

(** Two texts cut at the first [c] agree part by part. *)
Lemma split_at_first (c : ascii) (a a' b b' : string) :
  Views.free_of c a -> Views.free_of c a' ->
  a ++ String c b = a' ++ String c b' -> a = a' /\ b = b'.
Proof.
  revert a'. induction a as [|x a IH]; intros [|x' a'] Ha Ha' H;
    simpl in *.
  - injection H as ->. now split.
  - injection H as H _. destruct Ha' as [Hx _]. now contradiction Hx.
  - injection H as H _. destruct Ha as [Hx _]. now contradiction Hx.
  - injection H as -> H. destruct Ha as [_ Ha]. destruct Ha' as [_ Ha'].
    destruct (IH a' Ha Ha' H) as [-> ->]. now split.
Qed.

Lemma append_cancel_l (p a b : string) : p ++ a = p ++ b -> a = b.
Proof.
  induction p as [|c p IH]; simpl; intro H; [exact H|].
  injection H as H. now apply IH.
Qed.

(** X17. The [id] and the audio address of a verse record identify the
    verse: two records have the same [id], or the same [audio_url], only
    when chapter and verse number are the same. *)
Theorem verse_record_identifies (v1 v2 : Verse) :
  (r_id (format_verse_response v1) = r_id (format_verse_response v2) ->
   Spec.verseRef v1 = Spec.verseRef v2)
  /\ (r_audio_url (format_verse_response v1)
      = r_audio_url (format_verse_response v2) ->
      Spec.verseRef v1 = Spec.verseRef v2)
  /\ (forall c1 v1' c2 v2',
        get_audio_url c1 v1' = get_audio_url c2 v2' -> c1 = c2 /\ v1' = v2').
Proof.
  assert (Hurl : forall c1 n1 c2 n2,
             get_audio_url c1 n1 = get_audio_url c2 n2 -> c1 = c2 /\ n1 = n2).
  { intros c1 n1 c2 n2 H. unfold get_audio_url in H.
    apply append_cancel_l, append_cancel_l in H.
    change (format_int c1 ++ String "/" (format_int c1 ++ "-" ++ format_int n1 ++ ".MP3")
            = format_int c2 ++ String "/" (format_int c2 ++ "-" ++ format_int n2 ++ ".MP3"))
      in H.
    apply split_at_first in H; try (apply format_int_free; right; reflexivity).
    destruct H as [Hc H]. apply format_int_inj in Hc. subst c2.
    split; [reflexivity|].
    apply append_cancel_l in H.
    change (String "-" (format_int n1 ++ String "." "MP3")
            = String "-" (format_int n2 ++ String "." "MP3")) in H.
    injection H as H.
    apply split_at_first in H; try (apply format_int_free; left; reflexivity).
    destruct H as [H _]. now apply format_int_inj. }
  split; [|split; [|exact Hurl]].
  - cbn [format_verse_response r_id]. intro H.
    change (format_int (chapter v1) ++ String "." (format_int (verse v1))
            = format_int (chapter v2) ++ String "." (format_int (verse v2)))
      in H.
    apply split_at_first in H; try (apply format_int_free; left; reflexivity).
    destruct H as [Hc Hv]. apply format_int_inj in Hc, Hv.
    unfold Spec.verseRef. congruence.
  - cbn [format_verse_response r_audio_url]. intro H.
    apply Hurl in H. destruct H as [Hc Hv].
    unfold Spec.verseRef. congruence.
Qed.

End VerseRecords.

(* ====================================================================== *)
(** * The index builder and the search on the corpus it builds *)
(* ====================================================================== *)

Section BuiltCorpus.

Import PyStr BuildFaissIndex.
Open Scope string_scope.

Lemma any_in_incl (some all : list string) (t : string) :
  incl some all -> any_in all t = false -> any_in some t = false.
Proof.
  unfold any_in. intros Hi Ha.
  destruct (existsb _ some) eqn:E; [|reflexivity].
  apply existsb_exists in E. destruct E as [w [Hw Hc]].
  assert (Ht : existsb (fun w => contains w t) all = true)
    by (apply existsb_exists; exists w; split; [now apply Hi | exact Hc]).
  congruence.
Qed.

Lemma detector_cosmic_incl :
  incl LlmReasoning.cosmic_keywords cosmic_keywords.
Proof.
  intros w Hw. unfold LlmReasoning.cosmic_keywords in Hw.
  unfold cosmic_keywords. simpl in *.
  repeat (destruct Hw as [<-|Hw]; [tauto|]). contradiction.
Qed.

Lemma practical_not_cosmic (english_text : string) :
  is_practical_verse english_text = true ->
  LlmReasoning.is_cosmic (LlmReasoning.detect_verse_context english_text)
  = false.
Proof.
  unfold is_practical_verse, LlmReasoning.detect_verse_context.
  cbn [LlmReasoning.is_cosmic].
  destruct (any_in cosmic_keywords (lower english_text)) eqn:E;
    [discriminate|].
  intros _. exact (@any_in_incl _ _ _ detector_cosmic_incl E).
Qed.

(** X18. A verse that the index builder classes as practical is never
    flagged cosmic by the context detector of the guidance stage: every
    cosmic keyword of the detector is a cosmic keyword of the builder, and
    one of those makes a verse not practical whatever else it says. *)
Theorem practical_excludes_cosmic (english_text : string) :
  is_practical_verse english_text
  && LlmReasoning.is_cosmic (LlmReasoning.detect_verse_context english_text)
  = false.
Proof.
  destruct (is_practical_verse english_text) eqn:E; [|reflexivity].
  simpl. now apply practical_not_cosmic.
Qed.

(** X19. On a corpus built by the index builder, every verse that
    [search_gita] returns has the practical flag and the themes that the
    builder computes from its English text; the defaults of [search_gita]
    for missing keys are never used, and a returned verse that is ideal is
    not flagged cosmic by the context detector. *)
Theorem search_on_built_corpus
        (retrieve : string -> Z -> list (Z * Q)) (data : list DataVerse)
        (query : string) (top_k : Z) (filter_practical : bool)
        (out : list Verse) (r : Verse) :
  QueryFaiss.search_gita retrieve (metadata_list data) query top_k
                         filter_practical = Ok out ->
  In r out ->
  is_practical r = is_practical_verse (english r)
  /\ themes r = get_verse_themes (english r)
  /\ (QueryFaiss.is_ideal r = true ->
      LlmReasoning.is_cosmic (LlmReasoning.detect_verse_context (english r))
      = false).
Proof.
  intros H Hr. apply search_gita_inv in H.
  destruct H as [results [Hb ->]].
  apply sort_desc_In, select_practical_incl in Hr.
  apply filter_context_specific_verses_In in Hr.
  destruct Hr as [v [Hv ->]].
  pose proof (build_results_from_corpus _ _ Hb) as Hf.
  rewrite Forall_forall in Hf.
  destruct (Hf v Hv) as [m [Hm [_ [_ [He [Ht Hp]]]]]].
  unfold metadata_list in Hm. apply in_map_iff in Hm.
  destruct Hm as [d [<- _]]. cbn in He, Ht, Hp.
  pose proof (adjust_verse_own_data query v) as Ho.
  unfold Views.own_data in Ho.
  assert (E1 : english (QueryFaiss.adjust_verse query v) = english v)
    by congruence.
  assert (E2 : themes (QueryFaiss.adjust_verse query v) = themes v)
    by congruence.
  assert (E3 : is_practical (QueryFaiss.adjust_verse query v) = is_practical v)
    by congruence.
  rewrite E1, E2, E3, He.
  split; [exact Hp|]. split; [exact Ht|].
  unfold QueryFaiss.is_ideal. rewrite E3, Hp. intro Hi.
  apply andb_true_iff in Hi. destruct Hi as [Hi _].
  now apply practical_not_cosmic.
Qed.

Lemma append_if_distinct (flag : bool) (theme : string)
      (themes names : list string) :
  NoDup themes -> incl themes names -> ~ In theme names ->
  NoDup (QueryFaiss.append_if flag theme themes)
  /\ incl (QueryFaiss.append_if flag theme themes) (theme :: names)
  /\ (List.length (QueryFaiss.append_if flag theme themes)
      <= S (List.length themes))%nat.
Proof.
  intros Hn Hi Hf. unfold QueryFaiss.append_if. destruct flag.
  - split; [|split].
    + apply NoDup_app; [exact Hn | repeat constructor; intros [] |].
      intros x Hx [<-|[]]. now apply Hf, Hi.
    + intros x Hx. apply in_app_or in Hx.
      destruct Hx as [Hx|[<-|[]]]; [right; now apply Hi | now left].
    + rewrite length_app. simpl. lia.
  - split; [exact Hn|]. split; [|lia].
    intros x Hx. right. now apply Hi.
Qed.

(** X20. The themes that the builder attaches to a verse are pairwise
    distinct and at most twelve. *)
Theorem get_verse_themes_distinct (english_text : string) :
  NoDup (get_verse_themes english_text)
  /\ (List.length (get_verse_themes english_text) <= 12)%nat.
Proof.
  unfold get_verse_themes.
  assert (H0 : NoDup (@nil string) /\ incl (@nil string) []
               /\ (List.length (@nil string) <= 0)%nat).
  { split; [constructor|]. split; [intros x []|]. simpl. lia. }
  repeat match goal with
         | H : NoDup ?l /\ incl ?l ?names /\ (List.length ?l <= ?n)%nat
           |- context [QueryFaiss.append_if ?b ?x ?l] =>
             let H' := fresh "H" in
             assert (H' : NoDup (QueryFaiss.append_if b x l)
                          /\ incl (QueryFaiss.append_if b x l) (x :: names)
                          /\ (List.length (QueryFaiss.append_if b x l)
                              <= S n)%nat);
             [ destruct H as [Hn [Hi Hl]];
               destruct (@append_if_distinct b x l names Hn Hi) as [? [? ?]];
               [ simpl; intuition discriminate
               | repeat split; [assumption | assumption | lia] ]
             | clear H ]
         end.
  match goal with
  | H : NoDup _ /\ _ /\ _ |- _ => destruct H as [Hn [_ Hl]]
  end.
  split; [exact Hn | exact Hl].
Qed.

End BuiltCorpus.

(* ====================================================================== *)
(** * Adjuster and reranker together *)
(* ====================================================================== *)

Section TwoPenalties.

Import PyStr.
Open Scope string_scope.

Lemma shared_death_keywords (text_lower : string) :
  QueryFaiss.is_death_focused text_lower = true ->
  contains "dissolution" text_lower = false ->
  any_in LlmReasoning.death_keywords text_lower = true.
Proof.
  unfold QueryFaiss.is_death_focused, LlmReasoning.death_keywords, any_in.
  cbn [existsb]. intros H Hd. rewrite Hd in H.
  destruct (contains "death is certain" text_lower),
    (contains "rebirth is inevitable" text_lower),
    (contains "born and die" text_lower); try reflexivity.
  discriminate.
Qed.

(** X21. A verse that the adjuster has warned as death_rebirth for a
    phrase other than "dissolution" is death-focused for the reranker as
    well, so under a query without grief language its score is cut twice,
    by 0.80 and then by 0.7 (the other multipliers of the reranker undo
    less than that): for a raw score that is not negative the suitability
    score lies between 0.49 and 0.68 times the raw score, and for a
    positive raw score the suitability score is below the adjusted score,
    which is below the raw score. *)
Theorem death_penalty_compounds (q : string) (v : Verse) :
  context_warning (QueryFaiss.adjust_verse q v) = Some death_rebirth ->
  contains "dissolution" (lower (english v)) = false ->
  LlmReasoning.is_grief_query q = false ->
  0 <= score v ->
  LlmReasoning.is_death_focused
    (LlmReasoning.detect_verse_context (english v)) = true
  /\ adjusted_key (QueryFaiss.adjust_verse q v) == score v * 0.80
  /\ score v * 0.49
     <= LlmReasoning.suitability_score
          (LlmReasoning.rank_verse q (QueryFaiss.adjust_verse q v))
  /\ LlmReasoning.suitability_score
       (LlmReasoning.rank_verse q (QueryFaiss.adjust_verse q v))
     <= score v * 0.68
  /\ (0 < score v ->
      LlmReasoning.suitability_score
        (LlmReasoning.rank_verse q (QueryFaiss.adjust_verse q v))
      < adjusted_key (QueryFaiss.adjust_verse q v)
      /\ adjusted_key (QueryFaiss.adjust_verse q v) < score v).
Proof.
  intros Hw Hd Hg Hs.
  assert (Hdeath : QueryFaiss.is_death_focused (lower (english v)) = true
                   /\ QueryFaiss.adjust_verse q v
                      = QueryFaiss.set_adjustment v (Some death_rebirth)
                                                  (score v * 0.80)).
  { unfold QueryFaiss.adjust_verse in *.
    destruct (QueryFaiss.is_battlefield _ && _); [discriminate|].
    destruct (QueryFaiss.is_death_focused (lower (english v))) eqn:E;
      simpl in *; [|discriminate].
    destruct (negb _); [now split | discriminate]. }
  destruct Hdeath as [Hdf ->].
  assert (Hdet : LlmReasoning.is_death_focused
                   (LlmReasoning.detect_verse_context (english v)) = true)
    by (unfold LlmReasoning.detect_verse_context;
        cbn [LlmReasoning.is_death_focused];
        now apply shared_death_keywords).
  split; [exact Hdet|]. split; [reflexivity|].
  unfold LlmReasoning.rank_verse. cbn [LlmReasoning.suitability_score].
  unfold adjusted_key. cbn [QueryFaiss.set_adjustment relevance_adjusted english].
  unfold LlmReasoning.adjust_suitability.
  rewrite Hdet, Hg, is_universal_detected.
  destruct (LlmReasoning.is_battlefield _),
    (LlmReasoning.is_confrontation_query q); cbn [andb negb];
    (split; [lra|]); (split; [lra|]); intro Hpos; split; lra.
Qed.

End TwoPenalties.

(* ====================================================================== *)
(** * The further properties on concrete cases *)
(* ====================================================================== *)

Section FurtherCases.

Import Samples Cases.
Open Scope string_scope.

Lemma keyword_flags_monotone_witness :
  Bool.le (QueryFaiss.emotional (QueryFaiss.categorize_problem future_query))
          (QueryFaiss.emotional
             (QueryFaiss.categorize_problem
                ("Honestly, " ++ future_query ++ " these days")%string)).
Proof.
  exact (proj1 (@keyword_flags_monotone
                  "Honestly, " future_query " these days"
                  eq_refl eq_refl eq_refl)).
Defined.

Lemma search_gita_raises_iff_witness :
  snd (Resources.search_gita fixed_index no_index_files first_call
                             desk_query 2 true)
  = inl (Resources.LoadFailed
           (Resources.FileNotFoundError Resources.INDEX_PATH)).
Proof.
  apply (proj1 (proj2 (proj2 (search_gita_raises_iff
                                fixed_index no_index_files first_call
                                desk_query 2 true)))).
  split; reflexivity.
Defined.

Lemma search_gita_size_witness :
  List.length
    (returned (QueryFaiss.search_gita (ranking hits8) corpus8 desk_query
                                      QueryFaiss.TOP_K true))
  = 5%nat.
Proof.
  rewrite (proj1 (@search_gita_size
                    (ranking hits8) corpus8 desk_query QueryFaiss.TOP_K true
                    (returned (QueryFaiss.search_gita
                                 (ranking hits8) corpus8 desk_query
                                 QueryFaiss.TOP_K true))
                    ltac:(vm_compute; reflexivity))).
  vm_compute. reflexivity.
Defined.

Lemma search_gita_unfiltered_witness :
  QueryFaiss.search_gita (ranking hits8) corpus8 desk_query
                         QueryFaiss.TOP_K false
  = Ok (firstn 5 (QueryFaiss.filter_context_specific_verses
                    (results_of corpus8 hits8) desk_query)).
Proof.
  apply (@search_gita_unfiltered (ranking hits8) corpus8 desk_query
                                 QueryFaiss.TOP_K (results_of corpus8 hits8)).
  vm_compute. reflexivity.
Defined.

Lemma search_gita_sorted_witness :
  Spec.by_adjusted_desc
    (returned (QueryFaiss.search_gita (ranking hits8) corpus8 desk_query
                                      QueryFaiss.TOP_K true)).
Proof.
  apply (@search_gita_sorted (ranking hits8) corpus8 desk_query
                             QueryFaiss.TOP_K true).
  vm_compute. reflexivity.
Defined.

Lemma search_gita_ideal_count_witness :
  exists filtered unfiltered,
    QueryFaiss.search_gita (ranking hits8) corpus8 desk_query
                           QueryFaiss.TOP_K true = Ok filtered
    /\ QueryFaiss.search_gita (ranking hits8) corpus8 desk_query
                              QueryFaiss.TOP_K false = Ok unfiltered
    /\ List.length (filter QueryFaiss.is_ideal filtered) = 2%nat
    /\ (List.length (filter QueryFaiss.is_ideal unfiltered)
        <= List.length (filter QueryFaiss.is_ideal filtered))%nat.
Proof.
  destruct (@search_gita_ideal_count
              (ranking hits8) corpus8 desk_query QueryFaiss.TOP_K
              (results_of corpus8 hits8))
    as [filtered [unfiltered [H1 [H2 [H3 H4]]]]].
  - vm_compute. reflexivity.
  - exists filtered, unfiltered.
    split; [exact H1|]. split; [exact H2|]. split; [|exact H4].
    rewrite H3. vm_compute. reflexivity.
Defined.

Lemma search_gita_filter_void_witness :
  exists filtered unfiltered,
    QueryFaiss.search_gita (ranking hits2) corpus2 desk_query
                           QueryFaiss.TOP_K true = Ok filtered
    /\ QueryFaiss.search_gita (ranking hits2) corpus2 desk_query
                              QueryFaiss.TOP_K false = Ok unfiltered
    /\ Permutation filtered unfiltered.
Proof.
  destruct (@search_gita_filter_void
              (ranking hits2) corpus2 desk_query QueryFaiss.TOP_K
              (results_of corpus2 hits2))
    as [filtered [unfiltered [H1 [H2 [H3 _]]]]].
  - vm_compute. reflexivity.
  - vm_compute. lia.
  - exists filtered, unfiltered.
    split; [exact H1|]. split; [exact H2 | exact H3].
Defined.

Lemma rerank_order_within_flags_witness :
  LlmReasoning.suitability_score (LlmReasoning.rank_verse desk_query (steady 0.5))
  <= LlmReasoning.suitability_score
       (LlmReasoning.rank_verse desk_query (steady 0.7)).
Proof.
  apply (proj1 (@rerank_order_within_flags desk_query (steady 0.5)
                  (steady 0.7) ltac:(reflexivity))).
  vm_compute. discriminate.
Defined.

Lemma rerank_factor_range_witness :
  0.62 * 0.6
  <= LlmReasoning.suitability_score
       (LlmReasoning.rank_verse desk_query (steady 0.62))
  /\ LlmReasoning.suitability_score
       (LlmReasoning.rank_verse desk_query (steady 0.62))
     <= 0.62 * 1.5.
Proof.
  apply (proj1 (rerank_factor_range desk_query (steady 0.62))).
  vm_compute. discriminate.
Defined.

Lemma forwarded_are_most_suitable_witness :
  List.length
    (LlmReasoning.forwarded
       (LlmReasoning.reason_over_verses desk_query mixed_verses))
  = 3%nat.
Proof.
  rewrite (proj1 (@forwarded_are_most_suitable
                    desk_query mixed_verses
                    (LlmReasoning.forwarded
                       (LlmReasoning.reason_over_verses desk_query
                                                        mixed_verses))
                    ltac:(vm_compute; reflexivity))).
  vm_compute. reflexivity.
Defined.

Lemma load_resources_once_witness :
  Resources.load_resources files_gone warm = (warm, inr (1%nat, 2%nat, 3%nat)).
Proof.
  apply (@load_resources_once nat nat nat files_present files_gone cold).
  reflexivity.
Defined.

Lemma load_resources_failure_witness :
  Resources._index (fst (Resources.load_resources metadata_gone cold)) <> None.
Proof.
  apply (load_resources_failure metadata_gone cold). reflexivity.
Defined.

Lemma verify_api_key_accepts_witness :
  exists e, Api.verify_api_key "" (Some "guess") = inl e.
Proof.
  apply (verify_api_key_accepts "" (Some "guess")). reflexivity.
Defined.

Lemma api_search_outcomes_witness :
  exists body,
    Api.search (ranking hits8) corpus8 desk_request = Api.Returned body
    /\ Api.total_verses body = List.length (Api.verses body)
    /\ (1 <= Api.total_verses body <= 5)%nat.
Proof.
  destruct (Api.search (ranking hits8) corpus8 desk_request)
    as [body|e|e] eqn:E;
    [|vm_compute in E; discriminate..].
  exists body. split; [reflexivity|].
  destruct (proj2 (proj2 (api_search_outcomes (ranking hits8) corpus8
                                              desk_request)) body E)
    as [H1 [H2 _]].
  now split.
Defined.

Lemma verse_record_identifies_witness :
  Spec.verseRef (steady 0.5) = Spec.verseRef (steady 0.7).
Proof.
  apply (proj1 (verse_record_identifies (steady 0.5) (steady 0.7))).
  reflexivity.
Defined.

Lemma search_on_built_corpus_witness :
  Forall (fun r =>
            is_practical r = BuildFaissIndex.is_practical_verse (english r))
         (returned (QueryFaiss.search_gita
                      (ranking hits2) (BuildFaissIndex.metadata_list data2)
                      desk_query QueryFaiss.TOP_K true)).
Proof.
  apply Forall_forall. intros r Hr.
  apply (@search_on_built_corpus
           (ranking hits2) data2 desk_query QueryFaiss.TOP_K true
           (returned (QueryFaiss.search_gita
                        (ranking hits2) (BuildFaissIndex.metadata_list data2)
                        desk_query QueryFaiss.TOP_K true)) r).
  - vm_compute. reflexivity.
  - exact Hr.
Defined.

Lemma death_penalty_compounds_witness :
  LlmReasoning.suitability_score
    (LlmReasoning.rank_verse desk_query
       (QueryFaiss.adjust_verse desk_query (mortal 0.50)))
  <= 0.50 * 0.68.
Proof.
  apply (@death_penalty_compounds desk_query (mortal 0.50));
    vm_compute; (reflexivity || discriminate).
Defined.

End FurtherCases.
